(** * ScriptIt notebook server: kernel supervisor, notebook document and
      execution orchestration

    A shallow embedding of [Extensions/notebook/notebook_server.py].

    The server keeps three pieces of mutable state: the [KernelManager]
    singleton (the child process handle and an execution counter), the
    global [current_notebook] (a JSON document held as nested Python
    dicts and lists) and the operating system behind them (the child
    process, the files, the uuid generator and the clock).  Each Python
    function becomes a computation in a state-and-exception monad over
    that state; a Python exception is an explicit [Raise].

    Values are JSON values as Python's [json] module produces them:
    [None], [bool], [int], [str], [list] and [dict] with string keys.
    Floating-point numbers are outside the model.  A string is a
    sequence of characters with code points below 256. *)

From stdpp Require Import base list strings gmap.
From Stdlib Require Import ZArith Ascii String DecimalString Lia.

Set Warnings "-register-all".
Local Open Scope Z_scope.

(** ** Python exceptions *)

(** An exception is its class name and its [str()]. *)
Record exn := Exn { exn_type : string; exn_str : string }.

Inductive outcome (A : Type) :=
| Ok (a : A)
| Raise (e : exn).
Arguments Ok {A} a.
Arguments Raise {A} e.

Definition rbind {A B} (r : outcome A) (k : A -> outcome B) : outcome B :=
  match r with
  | Ok a => k a
  | Raise e => Raise e
  end.

Declare Scope res_scope.
Delimit Scope res_scope with res.
Notation "x <- c ;; k" := (rbind c (fun x => k))
  (at level 100, c at next level, k at level 200, only parsing) : res_scope.

Definition is_ok {A} (r : outcome A) : bool :=
  match r with Ok _ => true | Raise _ => false end.

(** ** JSON values as Python objects *)

(** A [dict] keeps its keys in insertion order and holds each key once;
    it is an association list read at the first match. *)
Inductive json :=
| JNull
| JBool (b : bool)
| JInt (z : Z)
| JStr (s : string)
| JList (l : list json)
| JDict (d : list (string * json)).

Fixpoint assoc {V} (k : string) (d : list (string * V)) : option V :=
  match d with
  | [] => None
  | (k', v) :: d' => if String.eqb k k' then Some v else assoc k d'
  end.

(** [d[k] = v] on a dict: the value is replaced where the key stands, a
    new key goes to the end. *)
Fixpoint dict_set {V} (k : string) (v : V) (d : list (string * V))
  : list (string * V) :=
  match d with
  | [] => [(k, v)]
  | (k', v') :: d' =>
      if String.eqb k k' then (k, v) :: d' else (k', v') :: dict_set k v d'
  end.

(** [bool(x)]: the truth value an [if x:] tests. *)
Definition py_truthy (x : json) : bool :=
  match x with
  | JNull => false
  | JBool b => b
  | JInt z => negb (z =? 0)
  | JStr s => negb (String.eqb s "")
  | JList l => match l with [] => false | _ => true end
  | JDict d => match d with [] => false | _ => true end
  end.

(** [a == b].  [bool] is a subclass of [int], so [True == 1]; lists are
    compared element by element and dicts key by key, whatever the order
    of the keys. *)
Fixpoint py_eq (a b : json) : bool :=
  match a, b with
  | JNull, JNull => true
  | JBool x, JBool y => Bool.eqb x y
  | JBool x, JInt y => Z.b2z x =? y
  | JInt x, JBool y => x =? Z.b2z y
  | JInt x, JInt y => x =? y
  | JStr x, JStr y => String.eqb x y
  | JList xs, JList ys =>
      (fix go (xs ys : list json) : bool :=
         match xs, ys with
         | [], [] => true
         | x :: xs', y :: ys' => py_eq x y && go xs' ys'
         | _, _ => false
         end) xs ys
  | JDict d, JDict e =>
      (List.length d =? List.length e)%nat &&
      (fix go (d : list (string * json)) : bool :=
         match d with
         | [] => true
         | (k, v) :: d' =>
             match assoc k e with
             | Some w => py_eq v w
             | None => false
             end && go d'
         end) d
  | _, _ => false
  end.

(** [type(x).__name__], as it appears in the messages of exceptions. *)
Definition py_type_name (x : json) : string :=
  match x with
  | JNull => "NoneType"
  | JBool _ => "bool"
  | JInt _ => "int"
  | JStr _ => "str"
  | JList _ => "list"
  | JDict _ => "dict"
  end.

Definition quote (s : string) : string := "'" +:+ s +:+ "'".

(** [obj[key]] for a string key. *)
Definition py_getitem (obj : json) (key : string) : outcome json :=
  match obj with
  | JDict d =>
      match assoc key d with
      | Some v => Ok v
      | None => Raise (Exn "KeyError" (quote key))
      end
  | JList _ =>
      Raise (Exn "TypeError" "list indices must be integers or slices, not str")
  | JStr _ =>
      Raise (Exn "TypeError" "string indices must be integers, not 'str'")
  | _ =>
      Raise (Exn "TypeError"
               (quote (py_type_name obj) +:+ " object is not subscriptable"))
  end.

(** [obj.get(key, default)]. *)
Definition py_get (obj : json) (key : string) (default : json) : outcome json :=
  match obj with
  | JDict d =>
      Ok (match assoc key d with Some v => v | None => default end)
  | _ =>
      Raise (Exn "AttributeError"
               (quote (py_type_name obj) +:+ " object has no attribute 'get'"))
  end.

(** [obj[key] = v] for a string key; the result is the object after the
    assignment. *)
Definition py_setitem (obj : json) (key : string) (v : json) : outcome json :=
  match obj with
  | JDict d => Ok (JDict (dict_set key v d))
  | JList _ =>
      Raise (Exn "TypeError" "list indices must be integers or slices, not str")
  | _ =>
      Raise (Exn "TypeError"
               (quote (py_type_name obj) +:+
                " object does not support item assignment"))
  end.

(** [obj.append(x)]. *)
Definition py_append (obj : json) (x : json) : outcome json :=
  match obj with
  | JList l => Ok (JList (l ++ [x]))
  | _ =>
      Raise (Exn "AttributeError"
               (quote (py_type_name obj) +:+ " object has no attribute 'append'"))
  end.

(** The elements a [for x in obj:] visits: the items of a list, the keys
    of a dict, the characters of a string. *)
Definition py_iter (obj : json) : outcome (list json) :=
  match obj with
  | JList l => Ok l
  | JDict d => Ok (map (fun kv => JStr (fst kv)) d)
  | JStr s =>
      Ok (map (fun c => JStr (String c EmptyString)) (list_ascii_of_string s))
  | _ =>
      Raise (Exn "TypeError"
               (quote (py_type_name obj) +:+ " object is not iterable"))
  end.

(** ** [str.strip()] *)

(** [str.isspace] on one character with a code point below 256. *)
Definition is_space (c : ascii) : bool :=
  let n := nat_of_ascii c in
  ((9 <=? n) && (n <=? 13) || (28 <=? n) && (n <=? 32)
   || (n =? 133) || (n =? 160))%nat.

Fixpoint lstrip (s : string) : string :=
  match s with
  | String c s' => if is_space c then lstrip s' else s
  | EmptyString => EmptyString
  end.

Fixpoint rstrip (s : string) : string :=
  match s with
  | String c s' =>
      match rstrip s' with
      | EmptyString => if is_space c then EmptyString else String c EmptyString
      | t => String c t
      end
  | EmptyString => EmptyString
  end.

Definition strip (s : string) : string := rstrip (lstrip s).

(** [obj.strip()]. *)
Definition py_strip (obj : json) : outcome json :=
  match obj with
  | JStr s => Ok (JStr (strip s))
  | _ =>
      Raise (Exn "AttributeError"
               (quote (py_type_name obj) +:+ " object has no attribute 'strip'"))
  end.

(** ** The world outside the server *)

(** A child process is known by its process id. *)
Definition handle := nat.

(** The operating system, as the server sees it.  Every call may change
    the world, and every call that Python lets fail may raise.
    - [popen]: [subprocess.Popen([SCRIPTIT_BINARY, "--kernel"], ...)];
    - [poll h]: [true] when [h.poll() is None], the child still runs;
    - [stdin_write], [stdin_flush], [stdout_readline]: the pipes of [h];
    - [wait h t]: [h.wait(timeout=t)], raising on expiry;
    - [kill h]: [h.kill()];
    - [uuid4]: [str(uuid.uuid4())];
    - [utcnow]: [datetime.utcnow().isoformat()];
    - [open_w path]: whether [open(path, "w")] succeeds. *)
Class OS := {
  world : Type;
  popen : world -> outcome handle * world;
  poll : handle -> world -> bool * world;
  stdin_write : handle -> string -> world -> outcome unit * world;
  stdin_flush : handle -> world -> outcome unit * world;
  stdout_readline : handle -> world -> outcome string * world;
  wait : handle -> Z -> world -> outcome unit * world;
  kill : handle -> world -> outcome unit * world;
  uuid4 : world -> string * world;
  utcnow : world -> string * world;
  open_w : string -> world -> outcome unit * world
}.

(** Python's [json] module: [json.dumps(v)], [json.dump(v, f, indent=n)]
    and [json.loads(s)], which raises on a text that is not JSON. *)
Class Json := {
  json_dumps : json -> string;
  json_dumps_indent : nat -> json -> string;
  json_loads : string -> outcome json
}.

(** What the server did to its child processes, in order. *)
Inductive event :=
| EvPopen
| EvPoll (h : handle)
| EvWrite (h : handle) (text : string)
| EvFlush (h : handle)
| EvReadline (h : handle)
| EvWait (h : handle) (timeout : Z)
| EvKill (h : handle).

Section Server.
Context {os_model : OS} {codec : Json}.

(** ** The state of the server

    [process] and [execution_count] are the fields of the [kernel]
    singleton; [current_notebook] and [current_notebook_path] are the
    module's globals, [JNull] standing for [None]; [files] holds the
    contents of the regular files. *)
Record server := Server {
  process : option handle;
  execution_count : Z;
  current_notebook : json;
  current_notebook_path : json;
  files : gmap string string;
  outside : world;
  trace : list event
}.

Definition M (A : Type) : Type := server -> outcome A * server.

Definition ret {A} (a : A) : M A := fun s => (Ok a, s).

Definition raise {A} (e : exn) : M A := fun s => (Raise e, s).

Definition bind {A B} (m : M A) (k : A -> M B) : M B :=
  fun s =>
    match m s with
    | (Ok a, s') => k a s'
    | (Raise e, s') => (Raise e, s')
    end.

(** [try: body except Exception as e: handler]; what [body] did to the
    state before it raised stays done. *)
Definition try_except {A} (body : M A) (handler : exn -> M A) : M A :=
  fun s =>
    match body s with
    | (Ok a, s') => (Ok a, s')
    | (Raise e, s') => handler e s'
    end.

Definition lift {A} (r : outcome A) : M A := fun s => (r, s).

Declare Scope prog_scope.
Delimit Scope prog_scope with prog.
Notation "x <- c ;; k" := (bind c (fun x => k))
  (at level 100, c at next level, k at level 200, only parsing) : prog_scope.
Notation "c ;; k" := (bind c (fun _ => k))
  (at level 100, k at level 200, only parsing) : prog_scope.
Local Open Scope prog_scope.

Definition get_process : M (option handle) := fun s => (Ok (process s), s).

Definition set_process (p : option handle) : M unit :=
  fun s => (Ok tt,
            Server p (execution_count s) (current_notebook s)
              (current_notebook_path s) (files s) (outside s) (trace s)).

Definition set_execution_count (n : Z) : M unit :=
  fun s => (Ok tt,
            Server (process s) n (current_notebook s)
              (current_notebook_path s) (files s) (outside s) (trace s)).

Definition get_notebook : M json := fun s => (Ok (current_notebook s), s).

Definition set_notebook (nb : json) : M unit :=
  fun s => (Ok tt,
            Server (process s) (execution_count s) nb
              (current_notebook_path s) (files s) (outside s) (trace s)).

Definition get_files : M (gmap string string) := fun s => (Ok (files s), s).

Definition set_files (fs : gmap string string) : M unit :=
  fun s => (Ok tt,
            Server (process s) (execution_count s) (current_notebook s)
              (current_notebook_path s) fs (outside s) (trace s)).

(** A call into the operating system: the world moves on and the call
    is appended to the trace. *)
Definition syscall {A} (ev : list event) (f : world -> outcome A * world)
  : M A :=
  fun s =>
    let (a, w) := f (outside s) in
    (a, Server (process s) (execution_count s) (current_notebook s)
          (current_notebook_path s) (files s) w (trace s ++ ev)).

Definition total {A} (f : world -> A * world) : world -> outcome A * world :=
  fun w => let (a, w') := f w in (Ok a, w').

Definition do_popen : M handle := syscall [EvPopen] popen.
Definition do_poll (h : handle) : M bool := syscall [EvPoll h] (total (poll h)).
Definition do_write (h : handle) (text : string) : M unit :=
  syscall [EvWrite h text] (stdin_write h text).
Definition do_flush (h : handle) : M unit := syscall [EvFlush h] (stdin_flush h).
Definition do_readline (h : handle) : M string :=
  syscall [EvReadline h] (stdout_readline h).
Definition do_wait (h : handle) (timeout : Z) : M unit :=
  syscall [EvWait h timeout] (wait h timeout).
Definition do_kill (h : handle) : M unit := syscall [EvKill h] (kill h).
Definition do_uuid4 : M string := syscall [] (total uuid4).
Definition do_utcnow : M string := syscall [] (total utcnow).
Definition do_open_w (path : string) : M unit := syscall [] (open_w path).

(** ** KernelManager *)

Definition newline : string := String (ascii_of_nat 10) EmptyString.

(** The line [KernelManager] sends for a request: [json.dumps(req) + "\n"]. *)
Definition request_line (req : json) : string := json_dumps req +:+ newline.

Definition shutdown_request : json := JDict [("action", JStr "shutdown")].
Definition reset_request : json := JDict [("action", JStr "reset")].
Definition execute_request (cell_id code : json) : json :=
  JDict [("action", JStr "execute"); ("cell_id", cell_id); ("code", code)].

Definition is_empty (s : string) : bool := String.eqb s "".

(** [info = json.loads(ready)] and the test
    [info.get("status") != "kernel_ready"] of [start], [restart] and
    [reset]. *)
Definition check_ready (ready : string) : M unit :=
  info <- lift (json_loads ready) ;;
  status <- lift (py_get info "status" JNull) ;;
  if negb (py_eq status (JStr "kernel_ready"))
  then raise (Exn "RuntimeError" ("Kernel failed to start: " +:+ ready))
  else ret tt.

(** [KernelManager.start] *)
Definition start : M unit :=
  p <- get_process ;;
  running <- match p with
             | Some h => do_poll h
             | None => ret false
             end ;;
  if running then ret tt
  else
    h <- do_popen ;;
    set_process (Some h) ;;
    line <- do_readline h ;;
    check_ready (strip line).

(** The spawn sequence that [restart] and [reset] both write out: it
    differs from [start] in refusing an empty ready line by name. *)
Definition spawn_checked : M unit :=
  h <- do_popen ;;
  set_process (Some h) ;;
  line <- do_readline h ;;
  let ready := strip line in
  if is_empty ready
  then raise (Exn "RuntimeError" "Kernel produced no output on startup")
  else check_ready ready.

(** What [restart] does to a process that still runs: the shutdown
    request and a wait of 3 seconds; on any exception, a kill and a wait
    of 2 seconds, whose own exceptions are passed over. *)
Definition shut_down (h : handle) : M unit :=
  try_except
    (do_write h (request_line shutdown_request) ;;
     do_flush h ;;
     do_wait h 3)
    (fun _ =>
       try_except (do_kill h ;; do_wait h 2) (fun _ => ret tt)).

(** [KernelManager.restart] *)
Definition restart : M unit :=
  p <- get_process ;;
  match p with
  | Some h =>
      running <- do_poll h ;;
      if running then shut_down h else ret tt
  | None => ret tt
  end ;;
  set_process None ;;
  set_execution_count 0 ;;
  try_except spawn_checked (fun e => set_process None ;; raise e).

(** The process [self.process.stdin] and [self.process.stdout] go
    through; on [None] the attribute access raises. *)
Definition the_process (attr : string) : M handle :=
  p <- get_process ;;
  match p with
  | Some h => ret h
  | None =>
      raise (Exn "AttributeError"
               ("'NoneType' object has no attribute " +:+ quote attr))
  end.

(** [not self.process or self.process.poll() is not None] *)
Definition is_dead : M bool :=
  p <- get_process ;;
  match p with
  | None => ret true
  | Some h => running <- do_poll h ;; ret (negb running)
  end.

(** The Response [execute] makes up when the exchange failed. *)
Definition kernel_error (cell_id : json) (e : exn) : json :=
  JDict [("cell_id", cell_id);
         ("status", JStr "error");
         ("stdout", JStr "");
         ("stderr", JStr ("Kernel error: " +:+ exn_str e));
         ("result", JStr "");
         ("execution_count", JInt 0)].

(** [KernelManager.execute] *)
Definition execute (cell_id code : json) : M json :=
  dead <- is_dead ;;
  (if dead then set_process None ;; start else ret tt) ;;
  try_except
    (let cmd := json_dumps (execute_request cell_id code) in
     h <- the_process "stdin" ;;
     do_write h (cmd +:+ newline) ;;
     do_flush h ;;
     line <- do_readline h ;;
     let response := strip line in
     if is_empty response
     then raise (Exn "RuntimeError"
                   "No response from kernel (process may have crashed)")
     else lift (json_loads response))
    (fun e =>
       try_except (set_process None ;; start) (fun _ => ret tt) ;;
       ret (kernel_error cell_id e)).

Definition error_message (e : exn) : json :=
  JDict [("status", JStr "error"); ("message", JStr (exn_str e))].

(** [KernelManager.reset] *)
Definition reset : M json :=
  dead <- is_dead ;;
  if dead then
    set_process None ;;
    set_execution_count 0 ;;
    try_except
      (spawn_checked ;; ret (JDict [("status", JStr "reset_ok")]))
      (fun e => set_process None ;; ret (error_message e))
  else
    try_except
      (let cmd := json_dumps reset_request in
       h <- the_process "stdin" ;;
       do_write h (cmd +:+ newline) ;;
       do_flush h ;;
       line <- do_readline h ;;
       let response := strip line in
       if is_empty response
       then raise (Exn "RuntimeError" "No response from kernel")
       else
         set_execution_count 0 ;;
         lift (json_loads response))
      (fun e => ret (error_message e)).

(** [KernelManager.is_alive] *)
Definition is_alive : M bool :=
  p <- get_process ;;
  match p with
  | None => ret false
  | Some h => do_poll h
  end.

(** ** Notebook files *)

(** [load_notebook]: [open(filepath, "r")] and [json.load]. *)
Definition load_notebook (filepath : string) : M json :=
  fs <- get_files ;;
  match fs !! filepath with
  | Some text => lift (json_loads text)
  | None =>
      raise (Exn "FileNotFoundError"
               ("[Errno 2] No such file or directory: " +:+ quote filepath))
  end.

(** [save_notebook].  Its [notebook] argument is the dict the global
    [current_notebook] names, and it is stamped in place: the model
    works on the global, so that the stamp stays when [open] raises. *)
Definition save_notebook (filepath : string) : M unit :=
  notebook <- get_notebook ;;
  now <- do_utcnow ;;
  metadata <- lift (py_getitem notebook "metadata") ;;
  metadata <- lift (py_setitem metadata "modified" (JStr (now +:+ "Z"))) ;;
  notebook <- lift (py_setitem notebook "metadata" metadata) ;;
  set_notebook notebook ;;
  do_open_w filepath ;;
  fs <- get_files ;;
  set_files (<[filepath := json_dumps_indent 2 notebook]> fs).

(** ** Request handlers

    A handler receives [data], the decoded body of the request, and
    either sends one JSON reply with a status code or returns without
    sending any. *)
Inductive reply :=
| Reply (status : Z) (body : json)
| NoReply.

(** The cell literal of [/api/cell/add] and [/api/cell/delete]. *)
Definition empty_cell (id : string) (cell_type : json) : json :=
  JDict [("id", JStr id);
         ("type", cell_type);
         ("source", JStr "");
         ("outputs", JList []);
         ("execution_count", JNull);
         ("metadata", JDict [])].

(** [cell["outputs"].append({"type": kind, "text": text})] *)
Definition append_output (cell : json) (kind : string) (text : json)
  : outcome json :=
  (outputs <- py_getitem cell "outputs" ;;
   outputs <- py_append outputs (JDict [("type", JStr kind); ("text", text)]) ;;
   py_setitem cell "outputs" outputs)%res.

(** The lines [/api/execute] and [/api/run-all] share: the cell takes the
    [execution_count] of [result] and a new [outputs] list. *)
Definition store_result (cell result : json) : outcome json :=
  (count <- py_get result "execution_count" JNull ;;
   cell <- py_setitem cell "execution_count" count ;;
   cell <- py_setitem cell "outputs" (JList []) ;;
   stdout <- py_get result "stdout" (JStr "") ;;
   stderr <- py_get result "stderr" (JStr "") ;;
   res <- py_get result "result" (JStr "") ;;
   cell <- (if py_truthy stdout then append_output cell "stdout" stdout
            else Ok cell) ;;
   cell <- (if py_truthy stderr then append_output cell "stderr" stderr
            else Ok cell) ;;
   if py_truthy res then append_output cell "result" res else Ok cell)%res.

(** The loop of [/api/execute]: the first cell whose id equals [cell_id]
    takes the code and the result, and the loop breaks. *)
Fixpoint execute_update (cell_id code result : json) (cells : list json)
  : outcome (list json) :=
  match cells with
  | [] => Ok []
  | cell :: rest =>
      (id <- py_getitem cell "id" ;;
       if py_eq id cell_id then
         cell <- py_setitem cell "source" code ;;
         cell <- store_result cell result ;;
         Ok (cell :: rest)
       else
         rest <- execute_update cell_id code result rest ;;
         Ok (cell :: rest))%res
  end.

(** The cells are mutated in place, so the list the notebook holds under
    ["cells"] shows the change.  Only a list can hold cells: the elements
    of a dict or of a string are strings. *)
Definition put_cells (cells : list json) : M unit :=
  nb <- get_notebook ;;
  match nb with
  | JDict d =>
      match assoc "cells" d with
      | Some (JList _) => set_notebook (JDict (dict_set "cells" (JList cells) d))
      | _ => ret tt
      end
  | _ => ret tt
  end.

(** POST [/api/execute].  [exec_time] is [round(elapsed, 4)], the time
    the clock measured. *)
Definition post_execute (data exec_time : json) : M reply :=
  cell_id <- lift (py_get data "cell_id" (JStr "")) ;;
  code <- lift (py_get data "code" (JStr "")) ;;
  result <- execute cell_id code ;;
  result <- lift (py_setitem result "exec_time" exec_time) ;;
  nb <- get_notebook ;;
  (if py_truthy nb then
     cells <- lift (py_getitem nb "cells") ;;
     cells <- lift (py_iter cells) ;;
     cells <- lift (execute_update cell_id code result cells) ;;
     put_cells cells
   else ret tt) ;;
  ret (Reply 200 result).

(** [[c for c in cells if c["id"] != cell_id]] *)
Fixpoint remove_cell (cell_id : json) (cells : list json)
  : outcome (list json) :=
  match cells with
  | [] => Ok []
  | c :: rest =>
      (id <- py_getitem c "id" ;;
       rest <- remove_cell cell_id rest ;;
       Ok (if negb (py_eq id cell_id) then c :: rest else rest))%res
  end.

(** POST [/api/cell/delete] *)
Definition post_cell_delete (data : json) : M reply :=
  nb <- get_notebook ;;
  if py_truthy nb then
    cell_id <- lift (py_get data "cell_id" (JStr "")) ;;
    cells <- lift (py_getitem nb "cells") ;;
    cells <- lift (py_iter cells) ;;
    cells <- lift (remove_cell cell_id cells) ;;
    nb <- lift (py_setitem nb "cells" (JList cells)) ;;
    set_notebook nb ;;
    (if negb (py_truthy (JList cells)) then
       id <- do_uuid4 ;;
       cells <- lift (py_append (JList cells) (empty_cell id (JStr "code"))) ;;
       nb <- lift (py_setitem nb "cells" cells) ;;
       set_notebook nb
     else ret tt) ;;
    ret (Reply 200 (JDict [("status", JStr "deleted")]))
  else ret NoReply.

(** [cells[i], cells[j] = cells[j], cells[i]] with both indices in range. *)
Definition swap (i j : nat) (cells : list json) : list json :=
  match cells !! i, cells !! j with
  | Some a, Some b => <[i := b]> (<[j := a]> cells)
  | _, _ => cells
  end.

(** The loop of [/api/cell/move], from index [i] on; [all] is the list
    being reordered. *)
Fixpoint move_loop (cell_id direction : json) (i : nat) (all cells : list json)
  : outcome (list json) :=
  match cells with
  | [] => Ok all
  | cell :: rest =>
      (id <- py_getitem cell "id" ;;
       if py_eq id cell_id then
         if py_eq direction (JStr "up") && (0 <? i)%nat
         then Ok (swap i (i - 1) all)
         else if py_eq direction (JStr "down")
                 && (i <? List.length all - 1)%nat
         then Ok (swap i (i + 1) all)
         else Ok all
       else move_loop cell_id direction (S i) all rest)%res
  end.

(** POST [/api/cell/move] *)
Definition post_cell_move (data : json) : M reply :=
  nb <- get_notebook ;;
  if py_truthy nb then
    cell_id <- lift (py_get data "cell_id" (JStr "")) ;;
    direction <- lift (py_get data "direction" (JStr "down")) ;;
    cells <- lift (py_getitem nb "cells") ;;
    cells <- lift (py_iter cells) ;;
    cells <- lift (move_loop cell_id direction 0 cells cells) ;;
    put_cells cells ;;
    ret (Reply 200 (JDict [("status", JStr "moved")]))
  else ret NoReply.

(** The loop of [/api/cell/type]. *)
Fixpoint retype_loop (cell_id new_type : json) (cells : list json)
  : outcome (list json) :=
  match cells with
  | [] => Ok []
  | cell :: rest =>
      (id <- py_getitem cell "id" ;;
       if py_eq id cell_id then
         cell <- py_setitem cell "type" new_type ;;
         cell <- py_setitem cell "outputs" (JList []) ;;
         cell <- py_setitem cell "execution_count" JNull ;;
         Ok (cell :: rest)
       else
         rest <- retype_loop cell_id new_type rest ;;
         Ok (cell :: rest))%res
  end.

(** POST [/api/cell/type] *)
Definition post_cell_type (data : json) : M reply :=
  nb <- get_notebook ;;
  if py_truthy nb then
    cell_id <- lift (py_get data "cell_id" (JStr "")) ;;
    new_type <- lift (py_get data "type" (JStr "code")) ;;
    cells <- lift (py_getitem nb "cells") ;;
    cells <- lift (py_iter cells) ;;
    cells <- lift (retype_loop cell_id new_type cells) ;;
    put_cells cells ;;
    ret (Reply 200 (JDict [("status", JStr "updated")]))
  else ret NoReply.

(** [cell["type"] == "code" and cell["source"].strip()] *)
Definition runnable (cell : json) : outcome bool :=
  (type <- py_getitem cell "type" ;;
   if py_eq type (JStr "code") then
     source <- py_getitem cell "source" ;;
     stripped <- py_strip source ;;
     Ok (py_truthy stripped)
   else Ok false)%res.

(** [current_notebook["cells"][i]] after the cell there was mutated. *)
Definition put_cell (i : nat) (cell : json) : M unit :=
  nb <- get_notebook ;;
  match nb with
  | JDict d =>
      match assoc "cells" d with
      | Some (JList cells) =>
          set_notebook (JDict (dict_set "cells" (JList (<[i := cell]> cells)) d))
      | _ => ret tt
      end
  | _ => ret tt
  end.

(** The loop of [/api/run-all] from the cell at index [i] on; it returns
    [results]. *)
Fixpoint run_all_loop (i : nat) (cells : list json) : M (list json) :=
  match cells with
  | [] => ret []
  | cell :: rest =>
      run <- lift (runnable cell) ;;
      if run then
        id <- lift (py_getitem cell "id") ;;
        source <- lift (py_getitem cell "source") ;;
        result <- execute id source ;;
        cell <- lift (store_result cell result) ;;
        put_cell i cell ;;
        results <- run_all_loop (S i) rest ;;
        ret (result :: results)
      else run_all_loop (S i) rest
  end.

(** POST [/api/run-all] *)
Definition post_run_all (data : json) : M reply :=
  nb <- get_notebook ;;
  if py_truthy nb then
    cells <- lift (py_getitem nb "cells") ;;
    cells <- lift (py_iter cells) ;;
    results <- run_all_loop 0 cells ;;
    ret (Reply 200 (JDict [("status", JStr "ok"); ("results", JList results)]))
  else ret NoReply.

(** ** The rest of the kernel manager and of the handlers *)

(** [KernelManager.stop]: the handler of the [try] is a bare [except]
    whose [kill] is not guarded. *)
Definition stop : M unit :=
  p <- get_process ;;
  match p with
  | Some h =>
      running <- do_poll h ;;
      if running then
        try_except
          (do_write h (request_line shutdown_request) ;;
           do_flush h ;;
           do_wait h 3)
          (fun _ => do_kill h)
      else ret tt
  | None => ret tt
  end ;;
  set_process None.

Definition set_notebook_path (p : json) : M unit :=
  fun s => (Ok tt,
            Server (process s) (execution_count s) (current_notebook s)
              p (files s) (outside s) (trace s)).

(** [new_notebook(title)]: the clock is read once for [created] and once
    more for [modified], then the id of the cell is drawn. *)
Definition new_notebook (title : json) : M json :=
  created <- do_utcnow ;;
  modified <- do_utcnow ;;
  id <- do_uuid4 ;;
  ret (JDict [("nsit_format", JStr "1.0");
              ("metadata", JDict [("title", title);
                                  ("created", JStr (created +:+ "Z"));
                                  ("modified", JStr (modified +:+ "Z"));
                                  ("kernel", JStr "scriptit");
                                  ("kernel_version", JStr "2.0")]);
              ("cells", JList [empty_cell id (JStr "code")])]).

(** GET [/api/notebook]: [current_notebook is None] is the test. *)
Definition get_api_notebook : M reply :=
  nb <- get_notebook ;;
  match nb with
  | JNull =>
      nb <- new_notebook (JStr "Untitled") ;;
      set_notebook nb ;;
      ret (Reply 200 nb)
  | _ => ret (Reply 200 nb)
  end.

(** GET [/api/kernel/status] *)
Definition get_kernel_status : M reply :=
  alive <- is_alive ;;
  ret (Reply 200 (JDict [("alive", JBool alive)])).

(** POST [/api/kernel/restart] *)
Definition post_kernel_restart : M reply :=
  try_except
    (restart ;;
     ret (Reply 200 (JDict [("status", JStr "restarted")])))
    (fun e => ret (Reply 500 (error_message e))).

(** POST [/api/kernel/reset] *)
Definition post_kernel_reset : M reply :=
  result <- reset ;;
  ret (Reply 200 result).

(** POST [/api/notebook/new]: what [kernel.reset()] returns is dropped. *)
Definition post_notebook_new (data : json) : M reply :=
  title <- lift (py_get data "title" (JStr "Untitled")) ;;
  nb <- new_notebook title ;;
  set_notebook nb ;;
  set_notebook_path JNull ;;
  reset ;;
  nb <- get_notebook ;;
  ret (Reply 200 nb).

(** The loop of [/api/cell/add]: [Some] of the list with [new_cell]
    inserted after the first cell whose id is [after_id], [None] when the
    loop ends without a [break]. *)
Fixpoint add_loop (after_id new_cell : json) (cells : list json)
  : outcome (option (list json)) :=
  match cells with
  | [] => Ok None
  | cell :: rest =>
      (id <- py_getitem cell "id" ;;
       if py_eq id after_id then Ok (Some (cell :: new_cell :: rest))
       else
         found <- add_loop after_id new_cell rest ;;
         Ok (option_map (cons cell) found))%res
  end.

(** [current_notebook["cells"].append(new_cell)] *)
Definition append_cell (new_cell : json) : M unit :=
  nb <- get_notebook ;;
  cells <- lift (py_getitem nb "cells") ;;
  cells <- lift (py_append cells new_cell) ;;
  nb <- lift (py_setitem nb "cells" cells) ;;
  set_notebook nb.

(** POST [/api/cell/add] *)
Definition post_cell_add (data : json) : M reply :=
  nb <- get_notebook ;;
  if py_truthy nb then
    cell_type <- lift (py_get data "type" (JStr "code")) ;;
    after_id <- lift (py_get data "after_id" JNull) ;;
    id <- do_uuid4 ;;
    let new_cell := empty_cell id cell_type in
    (if py_truthy after_id then
       cells <- lift (py_getitem nb "cells") ;;
       cells <- lift (py_iter cells) ;;
       found <- lift (add_loop after_id new_cell cells) ;;
       match found with
       | Some cells => put_cells cells
       | None => append_cell new_cell
       end
     else append_cell new_cell) ;;
    ret (Reply 200 new_cell)
  else ret NoReply.

(** ** The vocabulary of the specification *)

(** The cell list of a Notebook: a dict whose ["cells"] is a list. *)
Definition notebook_cells (nb : json) : option (list json) :=
  match nb with
  | JDict d =>
      match assoc "cells" d with
      | Some (JList cells) => Some cells
      | _ => None
      end
  | _ => None
  end.

(** A Cell has an id, a type and a source text. *)
Definition is_cell (c : json) : bool :=
  match py_getitem c "id", py_getitem c "type", py_getitem c "source" with
  | Ok _, Ok _, Ok (JStr _) => true
  | _, _, _ => false
  end.

(** No cell of the list has the id [cell_id]. *)
Definition id_absent (cell_id : json) (cells : list json) : bool :=
  forallb (fun c => match py_getitem c "id" with
                    | Ok id => negb (py_eq id cell_id)
                    | Raise _ => false
                    end) cells.

(** [d.get(key, default)] on the items of a dict. *)
Definition field (d : list (string * json)) (key : string) (default : json)
  : json :=
  match assoc key d with Some v => v | None => default end.

Definition output_entry (kind : string) (text : json) : json :=
  JDict [("type", JStr kind); ("text", text)].

(** The outputs of a Response, in the words of the specification: one
    entry for each of stdout, stderr and result that is not empty, in
    that order. *)
Definition outputs_of (response : list (string * json)) : list json :=
  let entry kind :=
    let text := field response kind (JStr "") in
    if py_truthy text then [output_entry kind text] else [] in
  entry "stdout" ++ entry "stderr" ++ entry "result".

(** A cell run-all executes, in the words of the specification: its type
    is code and its source is not empty once stripped. *)
Definition eligible (cell : json) : bool :=
  match py_getitem cell "type", py_getitem cell "source" with
  | Ok type, Ok (JStr source) =>
      py_eq type (JStr "code") && negb (is_empty (strip source))
  | _, _ => false
  end.

Definition cell_field (cell : json) (key : string) : json :=
  match py_getitem cell key with Ok v => v | Raise _ => JNull end.

(** Executing the given cells one after the other, whatever each
    Response says, and collecting the Responses. *)
Fixpoint execute_each (cells : list json) : M (list json) :=
  match cells with
  | [] => ret []
  | cell :: rest =>
      response <- execute (cell_field cell "id") (cell_field cell "source") ;;
      responses <- execute_each rest ;;
      ret (response :: responses)
  end.

(** A Response is a record. *)
Definition is_record (v : json) : bool :=
  match v with JDict _ => true | _ => false end.

(** One field of every cell of a Notebook, in document order. *)
Definition cell_column (key : string) (nb : json) : list json :=
  match notebook_cells nb with
  | Some cells => map (fun c => cell_field c key) cells
  | None => []
  end.

Definition cell_ids : json -> list json := cell_column "id".
Definition cell_sources : json -> list json := cell_column "source".

(** One field of the metadata of a Notebook. *)
Definition metadata_field (nb : json) (key : string) : option json :=
  match nb with
  | JDict d =>
      match assoc "metadata" d with
      | Some (JDict m) => assoc key m
      | _ => None
      end
  | _ => None
  end.

(** The documents the specification lets [load] accept: a record with
    metadata and cells whose format version, the field [nsit_format] of
    the files the server writes, is 1.0. *)
Definition acceptable_document (doc : json) : bool :=
  is_ok (py_getitem doc "metadata") && is_ok (py_getitem doc "cells")
  && py_eq (cell_field doc "nsit_format") (JStr "1.0").


(** The part of the state [KernelManager] works on. *)
Definition kernel_view (s : server)
  : option handle * Z * world * list event :=
  (process s, execution_count s, outside s, trace s).

(** A computation that reads and writes that part only. *)
Definition kernel_only {A} (m : M A) : Prop :=
  forall s1 s2 : server,
    kernel_view s1 = kernel_view s2 ->
    fst (m s1) = fst (m s2) /\
    kernel_view (snd (m s1)) = kernel_view (snd (m s2)).

(** An event that neither kills a process nor waits for one. *)
Definition quiet (ev : event) : bool :=
  match ev with
  | EvKill _ | EvWait _ _ => false
  | _ => true
  end.

(** An event that starts a process. *)
Definition is_spawn (ev : event) : bool :=
  match ev with
  | EvPopen => true
  | _ => false
  end.

(** A value whose ["id"] can be read. *)
Definition has_id (c : json) : bool := is_ok (py_getitem c "id").

(** The cells a deletion of [cell_id] keeps. *)
Definition keeps (cell_id : json) (c : json) : bool :=
  negb (py_eq (cell_field c "id") cell_id).

(** The notebook [nb] with [cells] as its cell list and every other field
    as it is. *)
Definition with_cells (nb : json) (cells : list json) : json :=
  match nb with
  | JDict d => JDict (dict_set "cells" (JList cells) d)
  | _ => nb
  end.

(** The cell once a Response is written into it. *)
Definition stored (cell response : json) : json :=
  match store_result cell response with
  | Ok cell' => cell'
  | Raise _ => cell
  end.

(** The cells of a notebook once the Responses of a run of all cells are
    written back: the first Response into the first eligible cell, the
    second into the second, and the other cells as they are. *)
Fixpoint write_back (cells responses : list json) : list json :=
  match cells with
  | [] => []
  | c :: rest =>
      if eligible c then
        match responses with
        | r :: rs => stored c r :: write_back rest rs
        | [] => c :: rest
        end
      else c :: write_back rest responses
  end.

(** A Notebook: a dict whose ["cells"] is a list of cells that is not
    empty. *)
Definition notebook_ok (nb : json) : bool :=
  match notebook_cells nb with
  | Some (c :: cells) => forallb is_cell (c :: cells)
  | _ => false
  end.

(** The document [new_notebook] builds from a title, two readings of the
    clock and an id. *)
Definition blank_notebook (title : json) (created modified id : string) : json :=
  JDict [("nsit_format", JStr "1.0");
         ("metadata", JDict [("title", title);
                             ("created", JStr (created +:+ "Z"));
                             ("modified", JStr (modified +:+ "Z"));
                             ("kernel", JStr "scriptit");
                             ("kernel_version", JStr "2.0")]);
         ("cells", JList [empty_cell id (JStr "code")])].

(** The handlers that edit the cell list. *)
Definition editors : list (json -> M reply) :=
  [post_cell_add; post_cell_delete; post_cell_move; post_cell_type].





End Server.

Arguments server {os_model}.
Arguments Server {os_model}.

(** ** A JSON text codec

    An instance of [Json] to run the model on concrete inputs: the
    float-free part of JSON text, printed with the separators Python
    uses.  A quote character never stands in a literal here; it is
    built from its code. *)
Module JsonText.

Definition dquote : ascii := ascii_of_nat 34.
Definition backslash : ascii := ascii_of_nat 92.

Fixpoint escape (s : string) : string :=
  match s with
  | EmptyString => EmptyString
  | String c s' =>
      let n := nat_of_ascii c in
      if (n =? 34)%nat then String backslash (String dquote (escape s'))
      else if (n =? 92)%nat then String backslash (String backslash (escape s'))
      else if (n =? 10)%nat then String backslash (String "n" (escape s'))
      else if (n =? 13)%nat then String backslash (String "r" (escape s'))
      else if (n =? 9)%nat then String backslash (String "t" (escape s'))
      else String c (escape s')
  end.

Definition print_string (s : string) : string :=
  String dquote (escape s +:+ String dquote EmptyString).

Definition print_Z (z : Z) : string := NilZero.string_of_int (Z.to_int z).

(** [json.dumps(v)] *)
Fixpoint print (v : json) : string :=
  match v with
  | JNull => "null"
  | JBool true => "true"
  | JBool false => "false"
  | JInt z => print_Z z
  | JStr s => print_string s
  | JList l =>
      "[" +:+
      (fix items (l : list json) : string :=
         match l with
         | [] => EmptyString
         | x :: l' =>
             print x +:+ match l' with [] => EmptyString | _ => ", " end
             +:+ items l'
         end) l
      +:+ "]"
  | JDict d =>
      "{" +:+
      (fix members (d : list (string * json)) : string :=
         match d with
         | [] => EmptyString
         | (k, x) :: d' =>
             print_string k +:+ ": " +:+ print x
             +:+ match d' with [] => EmptyString | _ => ", " end
             +:+ members d'
         end) d
      +:+ "}"
  end.

Fixpoint spaces (n : nat) : string :=
  match n with
  | O => EmptyString
  | S n' => String " " (spaces n')
  end.

Definition pad (n depth : nat) : string :=
  String (ascii_of_nat 10) (spaces (n * depth)).

(** [json.dumps(v, indent=n)] *)
Fixpoint print_indent (n depth : nat) (v : json) : string :=
  match v with
  | JList ((_ :: _) as l) =>
      "[" +:+ pad n (S depth) +:+
      (fix items (l : list json) : string :=
         match l with
         | [] => EmptyString
         | x :: l' =>
             print_indent n (S depth) x
             +:+ match l' with
                 | [] => EmptyString
                 | _ => "," +:+ pad n (S depth)
                 end
             +:+ items l'
         end) l
      +:+ pad n depth +:+ "]"
  | JDict ((_ :: _) as d) =>
      "{" +:+ pad n (S depth) +:+
      (fix members (d : list (string * json)) : string :=
         match d with
         | [] => EmptyString
         | (k, x) :: d' =>
             print_string k +:+ ": " +:+ print_indent n (S depth) x
             +:+ match d' with
                 | [] => EmptyString
                 | _ => "," +:+ pad n (S depth)
                 end
             +:+ members d'
         end) d
      +:+ pad n depth +:+ "}"
  | _ => print v
  end.

Definition is_ws (c : ascii) : bool :=
  let n := nat_of_ascii c in
  ((n =? 32) || (n =? 9) || (n =? 10) || (n =? 13))%nat.

Fixpoint skip_ws (s : string) : string :=
  match s with
  | String c s' => if is_ws c then skip_ws s' else s
  | EmptyString => EmptyString
  end.

(** The characters of a string literal after its opening quote, and the
    text after its closing quote. *)
Fixpoint parse_chars (s : string) : option (string * string) :=
  match s with
  | EmptyString => None
  | String c s' =>
      if Ascii.eqb c dquote then Some (EmptyString, s')
      else if Ascii.eqb c backslash then
        match s' with
        | String e s'' =>
            let n := nat_of_ascii e in
            let decoded :=
              if (n =? 34)%nat then Some dquote
              else if (n =? 92)%nat then Some backslash
              else if (n =? 47)%nat then Some e
              else if Ascii.eqb e "n" then Some (ascii_of_nat 10)
              else if Ascii.eqb e "r" then Some (ascii_of_nat 13)
              else if Ascii.eqb e "t" then Some (ascii_of_nat 9)
              else None in
            match decoded, parse_chars s'' with
            | Some ch, Some (str, rest) => Some (String ch str, rest)
            | _, _ => None
            end
        | EmptyString => None
        end
      else
        match parse_chars s' with
        | Some (str, rest) => Some (String c str, rest)
        | None => None
        end
  end.

Definition is_num_char (c : ascii) : bool :=
  let n := nat_of_ascii c in
  ((n =? 45) || (48 <=? n) && (n <=? 57))%nat.

Fixpoint span_num (s : string) : string * string :=
  match s with
  | String c s' =>
      if is_num_char c
      then let (num, rest) := span_num s' in (String c num, rest)
      else (EmptyString, s)
  | EmptyString => (EmptyString, EmptyString)
  end.

Fixpoint strip_prefix (p s : string) : option string :=
  match p, s with
  | EmptyString, _ => Some s
  | String a p', String b s' => if Ascii.eqb a b then strip_prefix p' s' else None
  | _, EmptyString => None
  end.

Definition parse_atom (s : string) : option (json * string) :=
  match strip_prefix "null" s, strip_prefix "true" s, strip_prefix "false" s with
  | Some rest, _, _ => Some (JNull, rest)
  | _, Some rest, _ => Some (JBool true, rest)
  | _, _, Some rest => Some (JBool false, rest)
  | _, _, _ =>
      let (num, rest) := span_num s in
      match NilZero.int_of_string num with
      | Some i => Some (JInt (Z.of_int i), rest)
      | None => None
      end
  end.

Fixpoint parse_value (fuel : nat) (s : string) : option (json * string) :=
  match fuel with
  | O => None
  | S fuel =>
      match skip_ws s with
      | String c rest =>
          if Ascii.eqb c "[" then
            match skip_ws rest with
            | String c' rest' =>
                if Ascii.eqb c' "]" then Some (JList [], rest')
                else parse_items fuel rest []
            | EmptyString => None
            end
          else if Ascii.eqb c "{" then
            match skip_ws rest with
            | String c' rest' =>
                if Ascii.eqb c' "}" then Some (JDict [], rest')
                else parse_members fuel rest []
            | EmptyString => None
            end
          else if Ascii.eqb c dquote then
            match parse_chars rest with
            | Some (str, rest') => Some (JStr str, rest')
            | None => None
            end
          else parse_atom (String c rest)
      | EmptyString => None
      end
  end
with parse_items (fuel : nat) (s : string) (acc : list json)
  : option (json * string) :=
  match fuel with
  | O => None
  | S fuel =>
      match parse_value fuel s with
      | Some (v, rest) =>
          match skip_ws rest with
          | String c rest' =>
              if Ascii.eqb c "," then parse_items fuel rest' (acc ++ [v])
              else if Ascii.eqb c "]" then Some (JList (acc ++ [v]), rest')
              else None
          | EmptyString => None
          end
      | None => None
      end
  end
with parse_members (fuel : nat) (s : string) (acc : list (string * json))
  : option (json * string) :=
  match fuel with
  | O => None
  | S fuel =>
      match skip_ws s with
      | String q rest =>
          if Ascii.eqb q dquote then
            match parse_chars rest with
            | Some (key, rest) =>
                match skip_ws rest with
                | String c rest =>
                    if Ascii.eqb c ":" then
                      match parse_value fuel rest with
                      | Some (v, rest) =>
                          match skip_ws rest with
                          | String c rest' =>
                              if Ascii.eqb c ","
                              then parse_members fuel rest' (dict_set key v acc)
                              else if Ascii.eqb c "}"
                              then Some (JDict (dict_set key v acc), rest')
                              else None
                          | EmptyString => None
                          end
                      | None => None
                      end
                    else None
                | EmptyString => None
                end
            | None => None
            end
          else None
      | EmptyString => None
      end
  end.

(** [json.loads(text)] *)
Definition parse (text : string) : outcome json :=
  match parse_value (2 * String.length text + 2) text with
  | Some (v, rest) =>
      match skip_ws rest with
      | EmptyString => Ok v
      | _ => Raise (Exn "JSONDecodeError" "Extra data")
      end
  | None => Raise (Exn "JSONDecodeError" "Expecting value")
  end.

Definition codec : Json :=
  {| json_dumps := print;
     json_dumps_indent := fun n v => print_indent n 0 v;
     json_loads := parse |}.

End JsonText.

(** ** A scripted operating system

    An instance of [OS] to run the model on concrete inputs.  A child
    prints the lines of [out] one by one and then closes its output,
    which [readline] reports as an empty line; [stubborn] children
    ignore the shutdown request until they are killed. *)
Module Script.

Record child := Child {
  out : list string;
  running : bool;
  stubborn : bool
}.

(** [spawns] tells what the next calls of [Popen] do: raise, or start
    the given child. *)
Record machine := Machine {
  spawns : list (outcome child);
  children : list child;
  uuids : list string;
  clock : string;
  read_only : list string
}.

Definition set_children (w : machine) (cs : list child) : machine :=
  Machine (spawns w) cs (uuids w) (clock w) (read_only w).

Definition popen (w : machine) : outcome handle * machine :=
  match spawns w with
  | [] =>
      (Raise (Exn "FileNotFoundError"
                "[Errno 2] No such file or directory: 'scriptit'"), w)
  | Raise e :: rest =>
      (Raise e, Machine rest (children w) (uuids w) (clock w) (read_only w))
  | Ok c :: rest =>
      (Ok (List.length (children w)),
       Machine rest (children w ++ [c]) (uuids w) (clock w) (read_only w))
  end.

Definition poll (h : handle) (w : machine) : bool * machine :=
  (match children w !! h with Some c => running c | None => false end, w).

Definition broken_pipe : exn := Exn "BrokenPipeError" "[Errno 32] Broken pipe".

Definition stdin_write (h : handle) (text : string) (w : machine)
  : outcome unit * machine :=
  match children w !! h with
  | Some c => (if running c then Ok tt else Raise broken_pipe, w)
  | None => (Raise broken_pipe, w)
  end.

Definition stdin_flush (h : handle) (w : machine) : outcome unit * machine :=
  match children w !! h with
  | Some c => (if running c then Ok tt else Raise broken_pipe, w)
  | None => (Raise broken_pipe, w)
  end.

Definition stdout_readline (h : handle) (w : machine) : outcome string * machine :=
  match children w !! h with
  | Some c =>
      match out c with
      | line :: rest =>
          (Ok line,
           set_children w (<[h := Child rest (running c) (stubborn c)]> (children w)))
      | [] =>
          (Ok EmptyString,
           set_children w (<[h := Child [] false (stubborn c)]> (children w)))
      end
  | None => (Ok EmptyString, w)
  end.

Definition wait (h : handle) (timeout : Z) (w : machine) : outcome unit * machine :=
  match children w !! h with
  | Some c =>
      if running c && stubborn c
      then (Raise (Exn "TimeoutExpired" "Command timed out"), w)
      else (Ok tt, set_children w (<[h := Child (out c) false (stubborn c)]> (children w)))
  | None => (Ok tt, w)
  end.

Definition kill (h : handle) (w : machine) : outcome unit * machine :=
  match children w !! h with
  | Some c =>
      (Ok tt, set_children w (<[h := Child (out c) false false]> (children w)))
  | None => (Ok tt, w)
  end.

Definition uuid4 (w : machine) : string * machine :=
  match uuids w with
  | u :: rest => (u, Machine (spawns w) (children w) rest (clock w) (read_only w))
  | [] => ("00000000-0000-4000-8000-000000000000", w)
  end.

Definition utcnow (w : machine) : string * machine := (clock w, w).

Definition open_w (path : string) (w : machine) : outcome unit * machine :=
  (if existsb (String.eqb path) (read_only w)
   then Raise (Exn "PermissionError" "[Errno 13] Permission denied")
   else Ok tt, w).

Definition os : OS :=
  Build_OS machine popen poll stdin_write stdin_flush stdout_readline
    wait kill uuid4 utcnow open_w.

End Script.

(** ** Concrete servers

    States of the server over the scripted operating system and the
    JSON text codec, on which the theorems below are exercised. *)
Module Example.

(** One line of the protocol, as the kernel prints it. *)
Definition line (v : json) : string := JsonText.print v +:+ newline.

Definition ready : string :=
  line (JDict [("status", JStr "kernel_ready"); ("version", JStr "2.0")]).

Definition response (cell_id status stdout stderr : string) (count : Z) : json :=
  JDict [("cell_id", JStr cell_id);
         ("status", JStr status);
         ("stdout", JStr stdout);
         ("stderr", JStr stderr);
         ("result", JStr "");
         ("execution_count", JInt count)].

Definition cell (id type source : string) (count : json) : json :=
  JDict [("id", JStr id);
         ("type", JStr type);
         ("source", JStr source);
         ("outputs", JList []);
         ("execution_count", count);
         ("metadata", JDict [])].

Definition notebook (cells : list json) : json :=
  JDict [("nsit_format", JStr "1.0");
         ("metadata", JDict [("title", JStr "Untitled");
                             ("created", JStr "2024-01-01T09:00:00Z");
                             ("modified", JStr "2024-01-01T09:00:00Z");
                             ("kernel", JStr "scriptit");
                             ("kernel_version", JStr "2.0")]);
         ("cells", JList cells)].

Definition machine (spawns : list (outcome Script.child))
    (children : list Script.child) : Script.machine :=
  Script.Machine spawns children ["uuid-1"; "uuid-2"] "2024-01-01T12:00:00" [].

Definition state (p : option handle) (nb : json) (m : Script.machine)
  : @server Script.os :=
  @Server Script.os p 0 nb JNull ∅ m [].

(** No kernel runs and the binary cannot be started. *)
Definition no_kernel : @server Script.os :=
  state None (notebook [cell "c1" "code" "print(1)." JNull]) (machine [] []).

(** No kernel runs; the next one started will report ready. *)
Definition stopped : @server Script.os :=
  state None (notebook [cell "c1" "code" "print(1)." JNull])
    (machine [Ok (Script.Child [ready] true false)] []).

(** The kernel runs and answers the next request with [reset_ok]. *)
Definition resettable : @server Script.os :=
  state (Some 0%nat) (notebook [cell "c1" "code" "print(1)." JNull])
    (machine [] [Script.Child [line (JDict [("status", JStr "reset_ok")])]
                   true false]).

(** The kernel runs and ignores the shutdown request; the next one
    started will report ready. *)
Definition stubborn : @server Script.os :=
  state (Some 0%nat) (notebook [cell "c1" "code" "print(1)." JNull])
    (machine [Ok (Script.Child [ready] true false)]
       [Script.Child [] true true]).

(** Cell c1 ran once with count 3; the kernel then closes its output in
    the middle of the next exchange, and a new kernel can be started. *)
Definition crashing : @server Script.os :=
  state (Some 0%nat) (notebook [cell "c1" "code" "var x = 1." (JInt 3)])
    (machine [Ok (Script.Child [ready] true false)]
       [Script.Child [] true false]).

Definition run_c1 : json :=
  JDict [("cell_id", JStr "c1"); ("code", JStr "var x = 1 / 0.")].

(** A notebook with one cell, and the request to delete it. *)
Definition single : @server Script.os :=
  state None (notebook [cell "c1" "code" "print(1)." (JInt 1)]) (machine [] []).


(** A notebook with two cells, and requests naming a cell it has not. *)
Definition two_cells : list json :=
  [cell "c1" "code" "print(1)." (JInt 1); cell "c2" "markdown" "# notes" JNull].

Definition pair : @server Script.os :=
  state None (notebook two_cells) (machine [] []).

Definition unknown_cell : list (string * json) :=
  [("cell_id", JStr "c9"); ("direction", JStr "up"); ("type", JStr "markdown")].

(** Five cells, three of them to run; the kernel answers [ok], [error]
    and [ok]. *)
Definition five_cells : list json :=
  [cell "c1" "code" "var a = 1." JNull;
   cell "m1" "markdown" "# title" JNull;
   cell "c2" "code" "   " JNull;
   cell "c3" "code" "boom." JNull;
   cell "c4" "code" "print(a)." JNull].

Definition three_responses : list json :=
  [response "c1" "ok" "" "" 1;
   response "c3" "error" "" "undefined: boom" 2;
   response "c4" "ok" "1" "" 3].

Definition batch : @server Script.os :=
  state (Some 0%nat) (notebook five_cells)
    (machine [] [Script.Child (map line three_responses) true false]).

(** A file that holds a JSON document with an unknown version and
    neither metadata nor cells. *)
Definition odd_document : json := JDict [("nsit_format", JStr "9.9")].

Definition with_odd_file : @server Script.os :=
  @Server Script.os None 0 JNull JNull
    {[ "odd.nsit" := JsonText.print odd_document ]} (machine [] []) [].

(** The server [single] once its notebook is saved as [demo.nsit]. *)
Definition saved : @server Script.os :=
  snd (@save_notebook Script.os JsonText.codec "demo.nsit" single).

(** The server [batch] once its three eligible cells are executed. *)
Definition after_batch : @server Script.os :=
  snd (@execute_each Script.os JsonText.codec
         (List.filter eligible five_cells) batch).

(** No kernel runs; the next one started prints a line that is no JSON
    and keeps running. *)
Definition unready : @server Script.os :=
  state None (notebook two_cells)
    (machine [Ok (Script.Child ["hello" +:+ newline] true false)] []).

(** The kernel runs and answers the next request about c1. *)
Definition answering : @server Script.os :=
  state (Some 0%nat) (notebook two_cells)
    (machine [] [Script.Child [line (response "c1" "ok" "1" "" 4)] true false]).

(** Three cells, and requests about the second and the third. *)
Definition three_cells : list json :=
  [cell "c1" "code" "print(1)." (JInt 1);
   cell "c2" "markdown" "# notes" JNull;
   cell "c3" "code" "print(3)." (JInt 2)].

Definition triple : @server Script.os :=
  state None (notebook three_cells) (machine [] []).

Definition c2_up : list (string * json) :=
  [("cell_id", JStr "c2"); ("direction", JStr "up")].

Definition c2_down : list (string * json) :=
  [("cell_id", JStr "c2"); ("direction", JStr "down")].

Definition c3_to_markdown : list (string * json) :=
  [("cell_id", JStr "c3"); ("type", JStr "markdown")].

Definition add_after_c1 : list (string * json) :=
  [("type", JStr "markdown"); ("after_id", JStr "c1")].

Definition run_c1_again : list (string * json) :=
  [("cell_id", JStr "c1"); ("code", JStr "print(1).")].

(** The notebook [single] when [demo.nsit] cannot be written. *)
Definition locked : @server Script.os :=
  state None (notebook [cell "c1" "code" "print(1)." (JInt 1)])
    (Script.Machine [] [] ["uuid-1"] "2024-01-01T12:00:00" ["demo.nsit"]).

(** Three code cells, none of them blank; the kernel answers the first
    and closes its output during the second, and no other kernel can be
    started. *)
Definition three_code_cells : list json :=
  [cell "c1" "code" "var a = 1." JNull;
   cell "c2" "code" "boom." JNull;
   cell "c3" "code" "print(a)." JNull].

Definition orphaned : @server Script.os :=
  state (Some 0%nat) (notebook three_code_cells)
    (machine [] [Script.Child [line (response "c1" "ok" "" "" 1)] true false]).

End Example.

(** * Properties *)

Section Properties.
Context {os_model : OS} {codec : Json}.

(** ** Dicts *)

Lemma assoc_dict_set_eq {V} k (v : V) d : assoc k (dict_set k v d) = Some v.
Proof.
  induction d as [|[k' v'] d IH]; simpl.
  - by rewrite String.eqb_refl.
  - destruct (String.eqb k k') eqn:E; simpl; rewrite ?String.eqb_refl, ?E; auto.
Qed.

Lemma assoc_dict_set_ne {V} k k' (v : V) d :
  k <> k' -> assoc k' (dict_set k v d) = assoc k' d.
Proof.
  intros Hne. induction d as [|[k0 v0] d IH]; simpl.
  - destruct (String.eqb k' k) eqn:E; auto.
    apply String.eqb_eq in E. congruence.
  - destruct (String.eqb k k0) eqn:E; simpl.
    + apply String.eqb_eq in E. subst k0.
      destruct (String.eqb k' k) eqn:E'; auto.
      apply String.eqb_eq in E'. congruence.
    + destruct (String.eqb k' k0); auto.
Qed.

Lemma dict_set_same {V} k (v : V) d : assoc k d = Some v -> dict_set k v d = d.
Proof.
  induction d as [|[k' v'] d IH]; simpl; [done|].
  destruct (String.eqb k k') eqn:E.
  - apply String.eqb_eq in E. intros [= ->]. by subst.
  - intros H. by rewrite IH.
Qed.

Lemma py_getitem_setitem_eq d k v :
  exists d', py_setitem (JDict d) k v = Ok (JDict d') /\ assoc k d' = Some v
             /\ forall k', k <> k' -> assoc k' d' = assoc k' d.
Proof.
  exists (dict_set k v d). split; [done|]. split.
  - apply assoc_dict_set_eq.
  - intros. by apply assoc_dict_set_ne.
Qed.

(** ** Writing a Response into a cell *)

Lemma append_output_spec d kind text outs :
  assoc "outputs" d = Some (JList outs) ->
  append_output (JDict d) kind text
  = Ok (JDict (dict_set "outputs" (JList (outs ++ [output_entry kind text])) d)).
Proof. intros H. unfold append_output. simpl. by rewrite H. Qed.

(** What [store_result] leaves in a cell. *)
Lemma store_result_spec d r :
  exists d',
    store_result (JDict d) (JDict r) = Ok (JDict d') /\
    assoc "outputs" d' = Some (JList (outputs_of r)) /\
    assoc "execution_count" d' = Some (field r "execution_count" JNull) /\
    forall k, k <> "outputs" -> k <> "execution_count" -> assoc k d' = assoc k d.
Proof.
  unfold store_result, outputs_of. simpl.
  fold (field r "execution_count" JNull) (field r "stdout" (JStr ""))
       (field r "stderr" (JStr "")) (field r "result" (JStr "")).
  set (d0 := dict_set "outputs" (JList [])
               (dict_set "execution_count" (field r "execution_count" JNull) d)).
  assert (H0 : assoc "outputs" d0 = Some (JList [])) by apply assoc_dict_set_eq.
  assert (Hc0 : assoc "execution_count" d0
                = Some (field r "execution_count" JNull)).
  { unfold d0. rewrite assoc_dict_set_ne by done. apply assoc_dict_set_eq. }
  assert (Hk0 : forall k, k <> "outputs" -> k <> "execution_count" ->
                          assoc k d0 = assoc k d).
  { intros k H1 H2. unfold d0. by rewrite !assoc_dict_set_ne. }
  clearbody d0.
  assert (Hstep : forall kind text dk outs,
             assoc "outputs" dk = Some (JList outs) ->
             assoc "execution_count" dk = Some (field r "execution_count" JNull) ->
             (forall k, k <> "outputs" -> k <> "execution_count" ->
                        assoc k dk = assoc k d) ->
             exists dk',
               (if py_truthy text then append_output (JDict dk) kind text
                else Ok (JDict dk)) = Ok (JDict dk') /\
               assoc "outputs" dk'
               = Some (JList (outs ++ if py_truthy text
                                      then [output_entry kind text] else [])) /\
               assoc "execution_count" dk'
               = Some (field r "execution_count" JNull) /\
               (forall k, k <> "outputs" -> k <> "execution_count" ->
                          assoc k dk' = assoc k d)).
  { intros kind text dk outs Ho Hc Hk. destruct (py_truthy text).
    - eexists. split; [by apply append_output_spec|]. split; [|split].
      + apply assoc_dict_set_eq.
      + by rewrite assoc_dict_set_ne.
      + intros k H1 H2. rewrite assoc_dict_set_ne by done. by apply Hk.
    - exists dk. by rewrite app_nil_r. }
  destruct (Hstep "stdout" (field r "stdout" (JStr "")) d0 [] H0 Hc0 Hk0)
    as (d1 & E1 & H1 & Hc1 & Hk1).
  destruct (Hstep "stderr" (field r "stderr" (JStr "")) d1 _ H1 Hc1 Hk1)
    as (d2 & E2 & H2 & Hc2 & Hk2).
  destruct (Hstep "result" (field r "result" (JStr "")) d2 _ H2 Hc2 Hk2)
    as (d3 & E3 & H3 & Hc3 & Hk3).
  exists d3. rewrite E1. simpl. rewrite E2. simpl. rewrite E3.
  split; [done|]. split; [|done].
  rewrite H3. simpl. by rewrite <- app_assoc.
Qed.

(** C5: whatever a cell held before, applying an execution Response to
    it leaves as its outputs exactly the list rebuilt from the Response:
    an entry for stdout, for stderr and for result, each only when the
    field is not empty, in that order. *)
Theorem outputs_rebuilt_in_order (cell response : list (string * json)) :
  exists cell',
    store_result (JDict cell) (JDict response) = Ok cell' /\
    py_getitem cell' "outputs" = Ok (JList (outputs_of response)).
Proof.
  destruct (store_result_spec cell response) as (d' & E & Ho & _).
  exists (JDict d'). split; [done|]. simpl. by rewrite Ho.
Qed.

(** C2, as the code has it: applying a Response to a cell always gives
    the cell the Response's execution_count, [None] when it has none,
    whatever the status of the Response. *)
Theorem execution_count_always_overwritten (cell response : list (string * json)) :
  exists cell',
    store_result (JDict cell) (JDict response) = Ok cell' /\
    py_getitem cell' "execution_count"
    = Ok (field response "execution_count" JNull).
Proof.
  destruct (store_result_spec cell response) as (d' & E & _ & Hc & _).
  exists (JDict d'). split; [done|]. simpl. by rewrite Hc.
Qed.

(** ** Notebooks and their cells *)

Lemma server_eta (s : server) :
  Server (process s) (execution_count s) (current_notebook s)
    (current_notebook_path s) (files s) (outside s) (trace s) = s.
Proof. by destruct s. Qed.

Lemma notebook_cells_inv nb cells :
  notebook_cells nb = Some cells ->
  exists d, nb = JDict d /\ assoc "cells" d = Some (JList cells).
Proof.
  destruct nb as [| | | | |d]; simpl; try done.
  destruct (assoc "cells" d) as [[| | | |l|]|] eqn:E; try done.
  intros [= ->]. by exists d.
Qed.

Lemma assoc_some_truthy k (d : list (string * json)) (v : json) :
  assoc k d = Some v -> py_truthy (JDict d) = true.
Proof. by destruct d. Qed.

Lemma is_cell_fields c :
  is_cell c = true ->
  exists d, c = JDict d /\
            py_getitem c "id" = Ok (cell_field c "id") /\
            py_getitem c "source" = Ok (cell_field c "source").
Proof.
  unfold is_cell, cell_field. destruct c as [| | | | |d]; try done.
  destruct (py_getitem (JDict d) "id"); [|done].
  destruct (py_getitem (JDict d) "type"); [|done].
  destruct (py_getitem (JDict d) "source"); [|done].
  intros _. by exists d.
Qed.

Lemma set_notebook_same (s : server) d cells :
  current_notebook s = JDict d ->
  assoc "cells" d = Some (JList cells) ->
  set_notebook (JDict (dict_set "cells" (JList cells) d)) s = (Ok tt, s).
Proof.
  intros Hnb Hd. unfold set_notebook. rewrite (dict_set_same _ _ _ Hd), <- Hnb.
  by rewrite server_eta.
Qed.

Lemma put_cells_same (s : server) cells :
  notebook_cells (current_notebook s) = Some cells ->
  put_cells cells s = (Ok tt, s).
Proof.
  intros (d & Hnb & Hd)%notebook_cells_inv.
  unfold put_cells, bind, get_notebook. rewrite Hnb, Hd.
  by apply set_notebook_same.
Qed.

(** ** Deleting a cell *)

(** On cells that all carry an id, the comprehension of
    [/api/cell/delete] is a filter. *)
Lemma remove_cell_total cell_id cells :
  forallb is_cell cells = true ->
  remove_cell cell_id cells
  = Ok (List.filter (fun c => negb (py_eq (cell_field c "id") cell_id)) cells).
Proof.
  induction cells as [|c cells IH]; simpl; [done|].
  intros [Hc Hcs]%andb_prop.
  destruct (is_cell_fields c Hc) as (_ & _ & -> & _). simpl.
  by rewrite (IH Hcs).
Qed.

Lemma remove_cell_absent cell_id cells :
  id_absent cell_id cells = true -> remove_cell cell_id cells = Ok cells.
Proof.
  induction cells as [|c cells IH]; simpl; [done|].
  intros [Hc Hcs]%andb_prop.
  destruct (py_getitem c "id") as [id|]; [|done]. simpl.
  rewrite (IH Hcs). simpl. by rewrite Hc.
Qed.


(** ** Cell ids the notebook does not have *)

Lemma move_loop_absent cell_id direction i all cells :
  id_absent cell_id cells = true ->
  move_loop cell_id direction i all cells = Ok all.
Proof.
  revert i. induction cells as [|c cells IH]; simpl; [done|].
  intros i [Hc Hcs]%andb_prop.
  destruct (py_getitem c "id") as [id|]; [|done]. simpl.
  apply negb_true_iff in Hc. rewrite Hc. by apply IH.
Qed.

Lemma retype_loop_absent cell_id new_type cells :
  id_absent cell_id cells = true ->
  retype_loop cell_id new_type cells = Ok cells.
Proof.
  induction cells as [|c cells IH]; simpl; [done|].
  intros [Hc Hcs]%andb_prop.
  destruct (py_getitem c "id") as [id|]; [|done]. simpl.
  apply negb_true_iff in Hc. rewrite Hc. by rewrite (IH Hcs).
Qed.

(** C10: when no cell of the Notebook has the id of the request, delete
    (on a Notebook that has a cell), move and retype leave the whole
    state of the server as it was and answer [deleted], [moved] and
    [updated]. *)
Theorem absent_id_is_a_silent_no_op (s : server) (cells : list json)
    (data : list (string * json)) :
  notebook_cells (current_notebook s) = Some cells ->
  id_absent (field data "cell_id" (JStr "")) cells = true ->
  (cells <> [] ->
   post_cell_delete (JDict data) s
   = (Ok (Reply 200 (JDict [("status", JStr "deleted")])), s)) /\
  post_cell_move (JDict data) s
  = (Ok (Reply 200 (JDict [("status", JStr "moved")])), s) /\
  post_cell_type (JDict data) s
  = (Ok (Reply 200 (JDict [("status", JStr "updated")])), s).
Proof.
  intros Hcells Habs.
  destruct (notebook_cells_inv _ _ Hcells) as (d & Hnb & Hd).
  pose proof (assoc_some_truthy _ _ _ Hd) as Ht.
  split; [|split].
  - intros Hne. unfold post_cell_delete, bind, get_notebook. rewrite Hnb, Ht.
    unfold lift. cbn [py_get py_getitem]. rewrite Hd. cbn [py_iter].
    fold (field data "cell_id" (JStr "")).
    rewrite (remove_cell_absent _ _ Habs). cbn [py_setitem].
    rewrite (set_notebook_same s d cells Hnb Hd).
    destruct cells; [done|]. by cbn.
  - unfold post_cell_move, bind, get_notebook. rewrite Hnb, Ht.
    unfold lift. cbn [py_get py_getitem]. rewrite Hd. cbn [py_iter].
    fold (field data "cell_id" (JStr "")).
    rewrite (move_loop_absent _ _ _ _ _ Habs).
    by rewrite (put_cells_same s cells Hcells).
  - unfold post_cell_type, bind, get_notebook. rewrite Hnb, Ht.
    unfold lift. cbn [py_get py_getitem]. rewrite Hd. cbn [py_iter].
    fold (field data "cell_id" (JStr "")).
    rewrite (retype_loop_absent _ _ _ Habs).
    by rewrite (put_cells_same s cells Hcells).
Qed.

(** ** Saving and loading *)

Lemma save_notebook_inv (s s1 : server) filepath :
  save_notebook filepath s = (Ok tt, s1) ->
  exists d m,
    current_notebook s = JDict d /\
    assoc "metadata" d = Some (JDict m) /\
    let stamp := JStr (fst (utcnow (outside s)) +:+ "Z") in
    let nb' := JDict (dict_set "metadata"
                        (JDict (dict_set "modified" stamp m)) d) in
    current_notebook s1 = nb' /\
    files s1 = <[filepath := json_dumps_indent 2 nb']> (files s).
Proof.
  unfold save_notebook, bind, get_notebook, do_utcnow, do_open_w, syscall,
    total, lift, get_files, set_notebook, set_files.
  cbn [outside process execution_count current_notebook
       current_notebook_path files trace].
  destruct (utcnow (outside s)) as [now w] eqn:Enow.
  cbn [fst].
  destruct (current_notebook s) as [| | | | |d] eqn:Enb; try done.
  cbn [py_getitem].
  destruct (assoc "metadata" d) as [md|] eqn:Emd; [|done].
  destruct md as [| | | | |m]; try done.
  cbn [py_setitem].
  cbn [outside process execution_count current_notebook
       current_notebook_path files trace].
  destruct (open_w filepath w) as [[[]|e] w'] eqn:Eopen; [|done].
  intros [= <-]. by exists d, m.
Qed.

(** C8: when [save] has written the Notebook and the JSON library reads
    back what it printed, [load] of the saved file yields a document
    with the cell ids, the cell sources and every metadata field of the
    Notebook, but for [modified], which holds the time of the save. *)
Theorem save_then_load_round_trip (s s1 : server) (filepath : string) :
  save_notebook filepath s = (Ok tt, s1) ->
  json_loads (json_dumps_indent 2 (current_notebook s1))
  = Ok (current_notebook s1) ->
  exists doc,
    load_notebook filepath s1 = (Ok doc, s1) /\
    cell_ids doc = cell_ids (current_notebook s) /\
    cell_sources doc = cell_sources (current_notebook s) /\
    (forall key, key <> "modified" ->
       metadata_field doc key = metadata_field (current_notebook s) key) /\
    metadata_field doc "modified"
    = Some (JStr (fst (utcnow (outside s)) +:+ "Z")).
Proof.
  intros Hsave Hcodec.
  destruct (save_notebook_inv _ _ _ Hsave)
    as (d & m & Hnb & Hmd & Hnb1 & Hfiles).
  cbv zeta in Hnb1, Hfiles.
  exists (current_notebook s1). split.
  - unfold load_notebook, bind, get_files, lift. rewrite Hfiles.
    rewrite lookup_insert_eq. by rewrite <- Hnb1, Hcodec.
  - rewrite Hnb1, Hnb.
    assert (Hc : notebook_cells
              (JDict (dict_set "metadata"
                        (JDict (dict_set "modified"
                                  (JStr (fst (utcnow (outside s)) +:+ "Z")) m))
                        d))
            = notebook_cells (JDict d)).
    { unfold notebook_cells. by rewrite assoc_dict_set_ne. }
    unfold cell_ids, cell_sources, cell_column. rewrite Hc.
    split; [done|]. split; [done|].
    unfold metadata_field. rewrite assoc_dict_set_eq, Hmd. split.
    + intros key Hk. by rewrite assoc_dict_set_ne.
    + apply assoc_dict_set_eq.
Qed.

(** C9, as the code has it: [load] returns the value the text of the
    file decodes to, whatever its format version and its fields, and
    leaves the server as it was. *)
Theorem load_returns_what_the_file_decodes_to (s : server)
    (filepath text : string) (doc : json) :
  files s !! filepath = Some text ->
  json_loads text = Ok doc ->
  load_notebook filepath s = (Ok doc, s).
Proof.
  intros Hfile Hdoc. unfold load_notebook, bind, get_files, lift.
  by rewrite Hfile, Hdoc.
Qed.

(** ** The kernel manager *)

Ltac unfold_prog :=
  unfold shut_down, restart, reset, execute, start, spawn_checked, check_ready,
    is_dead, is_alive, the_process, do_popen, do_poll, do_write, do_flush,
    do_readline, do_wait, do_kill, syscall, total, bind, try_except, lift, ret,
    raise, get_process, set_process, set_execution_count in *.

Ltac sproj :=
  cbn [process execution_count current_notebook current_notebook_path files
       outside trace fst snd negb] in *.

(** One case split on the innermost call whose outcome the goal
    inspects. *)
Ltac case_step :=
  match goal with
  | |- context [match ?x with _ => _ end] =>
      lazymatch x with
      | context [match _ with _ => _ end] => fail
      | _ => destruct x eqn:?
      end
  | |- context [if ?x then _ else _] =>
      lazymatch x with
      | context [match _ with _ => _ end] => fail
      | context [if _ then _ else _] => fail
      | _ => destruct x eqn:?
      end
  end; sproj; try discriminate.

Ltac no_units := repeat match goal with u : unit |- _ => destruct u end.

Lemma spawn_checked_spec (s : server) :
  exists r s' startup,
    spawn_checked s = (r, s') /\
    trace s' = trace s ++ EvPopen :: startup /\
    execution_count s' = execution_count s /\
    match r with
    | Ok _ => exists h', process s' = Some h' /\ startup = [EvReadline h']
    | Raise _ => startup = [] \/ exists h', startup = [EvReadline h']
    end.
Proof.
  unfold_prog. sproj.
  repeat case_step;
    (eexists _, _, _; split; [reflexivity|]; sproj;
     split; [rewrite <- ?app_assoc; reflexivity|]; repeat split; eauto).
Qed.








(** ** Executing *)

(** With a running process [execute] returns a Response. *)
Lemma execute_returns_when_running (s : server) (h : handle)
    (cell_id code : json) :
  process s = Some h ->
  fst (poll h (outside s)) = true ->
  exists response s', execute cell_id code s = (Ok response, s').
Proof.
  intros Hp Hpoll. unfold_prog. sproj. rewrite Hp.
  destruct (poll h (outside s)) as [running w] eqn:E. sproj. subst running.
  sproj. repeat case_step; eauto.
Qed.

(** [execute] raises only what its first, unguarded [start] raises. *)
Lemma execute_raises_only_at_the_first_start (s : server) (cell_id code : json)
    (e : exn) (s' : server) :
  execute cell_id code s = (Raise e, s') ->
  exists s1, is_dead s = (Ok true, s1) /\
             bind (set_process None) (fun _ => start) s1 = (Raise e, s').
Proof.
  unfold_prog. sproj.
  repeat case_step; intros [= <- <-];
    (eexists; split; [reflexivity|]; sproj;
     repeat match goal with
            | H : ?f = _ |- context [?f] => rewrite H; sproj
            end;
     reflexivity).
Qed.

(** And it raises whenever that [start] does. *)
Lemma execute_raises_what_the_first_start_raises (s s1 s' : server)
    (cell_id code : json) (e : exn) :
  is_dead s = (Ok true, s1) ->
  bind (set_process None) (fun _ => start) s1 = (Raise e, s') ->
  execute cell_id code s = (Raise e, s').
Proof.
  intros Hdead Hstart. unfold execute. unfold bind at 1. rewrite Hdead.
  unfold bind at 1. by rewrite Hstart.
Qed.

(** When the exchange with a running kernel fails, the Response is the
    error record, with the failure in its stderr. *)
Lemma execute_reports_a_failed_exchange (s : server) (h : handle)
    (cell_id code : json) (w1 w2 : world) (e : exn) :
  process s = Some h ->
  poll h (outside s) = (true, w1) ->
  stdin_write h (request_line (execute_request cell_id code)) w1
  = (Raise e, w2) ->
  exists s', execute cell_id code s = (Ok (kernel_error cell_id e), s').
Proof.
  intros Hp Hpoll Hw. unfold request_line in Hw. unfold_prog. sproj.
  repeat (progress (rewrite ?Hp, ?Hpoll, ?Hw; sproj)).
  repeat case_step; eauto.
Qed.

(** *** [KernelManager] does not look at the notebook *)

Lemma kernel_only_ret {A} (a : A) : kernel_only (ret a).
Proof. by intros s1 s2 H. Qed.

Lemma kernel_only_raise {A} e : kernel_only (raise (A:=A) e).
Proof. by intros s1 s2 H. Qed.

Lemma kernel_only_lift {A} (r : outcome A) : kernel_only (lift r).
Proof. by intros s1 s2 H. Qed.

Lemma kernel_only_bind {A B} (m : M A) (k : A -> M B) :
  kernel_only m -> (forall a, kernel_only (k a)) -> kernel_only (bind m k).
Proof.
  intros Hm Hk s1 s2 H. unfold bind.
  destruct (Hm s1 s2 H) as [H1 H2].
  destruct (m s1) as [[a1|e1] s1'], (m s2) as [[a2|e2] s2']; sproj;
    try discriminate.
  - injection H1 as ->. by apply Hk.
  - injection H1 as ->. by split.
Qed.

Lemma kernel_only_try_except {A} (m : M A) (k : exn -> M A) :
  kernel_only m -> (forall e, kernel_only (k e)) -> kernel_only (try_except m k).
Proof.
  intros Hm Hk s1 s2 H. unfold try_except.
  destruct (Hm s1 s2 H) as [H1 H2].
  destruct (m s1) as [[a1|e1] s1'], (m s2) as [[a2|e2] s2']; sproj;
    try discriminate; [by split|].
  injection H1 as ->. by apply Hk.
Qed.

Lemma kernel_only_syscall {A} ev (f : world -> outcome A * world) :
  kernel_only (syscall ev f).
Proof.
  intros s1 s2 H. unfold syscall, kernel_view in *.
  injection H as Hp Hc Ho Ht. rewrite Ho.
  destruct (f (outside s2)) as [a w]. sproj. by rewrite Hp, Hc, Ht.
Qed.

Lemma kernel_only_get_process : kernel_only get_process.
Proof.
  intros s1 s2 H. unfold get_process. sproj. split; [|done].
  unfold kernel_view in H. by injection H as ->.
Qed.

Lemma kernel_only_set_process p : kernel_only (set_process p).
Proof.
  intros s1 s2 H. unfold set_process, kernel_view in *. sproj.
  injection H as Hp Hc Ho Ht. by rewrite Hc, Ho, Ht.
Qed.

Ltac kernel_only_tac :=
  repeat first
    [ apply kernel_only_ret | apply kernel_only_raise | apply kernel_only_lift
    | apply kernel_only_syscall | apply kernel_only_get_process
    | apply kernel_only_set_process
    | apply kernel_only_bind | apply kernel_only_try_except
    | match goal with
      | |- forall _, _ => intro
      | |- kernel_only (match ?x with _ => _ end) => destruct x
      | |- kernel_only (if ?x then _ else _) => destruct x
      end ].

Lemma kernel_only_start : kernel_only start.
Proof.
  unfold start, check_ready, do_poll, do_popen, do_readline. kernel_only_tac.
Qed.

Lemma kernel_only_execute cell_id code : kernel_only (execute cell_id code).
Proof.
  unfold execute, is_dead, the_process, do_poll, do_write, do_flush, do_readline.
  kernel_only_tac; apply kernel_only_start.
Qed.

(** ** Run all *)

Lemma runnable_eligible c : is_cell c = true -> runnable c = Ok (eligible c).
Proof.
  unfold is_cell, runnable, eligible.
  destruct (py_getitem c "id"); [|done].
  destruct (py_getitem c "type") as [ty|]; [|done].
  destruct (py_getitem c "source") as [[| | |src| |]|]; try done.
  intros _. simpl. by destruct (py_eq ty (JStr "code")).
Qed.

Lemma put_cell_ok i cell (s : server) :
  exists s', put_cell i cell s = (Ok tt, s') /\ kernel_view s' = kernel_view s.
Proof.
  unfold put_cell, bind, get_notebook, set_notebook, ret.
  destruct (current_notebook s) as [| | | | |d]; eauto.
  destruct (assoc "cells" d) as [[| | | |l|]|]; eauto.
Qed.

Lemma execute_each_length cells : forall (s s' : server) responses,
  execute_each cells s = (Ok responses, s') ->
  List.length responses = List.length cells.
Proof.
  induction cells as [|c cells IH]; intros s s' responses; simpl.
  - unfold ret. by intros [= <- _].
  - unfold bind.
    destruct (execute _ _ s) as [[r|e] s1]; [|done].
    destruct (execute_each cells s1) as [[rs|e] s2] eqn:E; [|done].
    unfold ret. intros [= <- _]. simpl. f_equal. by eapply IH.
Qed.

(** The loop of run-all against the sequential execution of the cells to
    run, from states with the same kernel. *)
Lemma run_all_loop_spec cells : forall i (s s0 s_e : server) responses,
  forallb is_cell cells = true ->
  kernel_view s = kernel_view s0 ->
  execute_each (List.filter eligible cells) s0 = (Ok responses, s_e) ->
  forallb is_record responses = true ->
  exists s',
    run_all_loop i cells s = (Ok responses, s') /\
    kernel_view s' = kernel_view s_e.
Proof.
  induction cells as [|c cells IH]; intros i s s0 s_e responses Hcells Hk Hex Hrec.
  - simpl in *. unfold ret in *. injection Hex as <- <-. by exists s.
  - simpl in Hcells. apply andb_prop in Hcells as [Hc Hcells].
    cbn [run_all_loop List.filter] in *.
    unfold bind at 1. unfold lift at 1. rewrite (runnable_eligible c Hc).
    destruct (eligible c) eqn:El; [|by eapply IH].
    destruct (is_cell_fields c Hc) as (d & Hd & Hid & Hsrc).
    cbn [execute_each] in Hex. unfold bind in Hex.
    unfold bind, lift. rewrite Hid, Hsrc.
    destruct (kernel_only_execute (cell_field c "id") (cell_field c "source")
                s s0 Hk) as [H1 H2].
    destruct (execute (cell_field c "id") (cell_field c "source") s0)
      as [[response|e] s0'] eqn:E0; [|done].
    destruct (execute (cell_field c "id") (cell_field c "source") s)
      as [r' s1] eqn:E1. sproj. subst r'.
    destruct (execute_each (List.filter eligible cells) s0')
      as [[rest|e] s_e'] eqn:Erest; [|done].
    unfold ret in Hex. injection Hex as <- <-.
    simpl in Hrec. apply andb_prop in Hrec as [Hr Hrest].
    destruct response as [| | | | |r]; try done.
    subst c. destruct (store_result_spec d r) as (d' & -> & _).
    destruct (put_cell_ok i (JDict d') s1) as (s2 & -> & Hk2).
    destruct (IH (S i) s2 s0' s_e' rest Hcells) as (s' & -> & Hk'); try done.
    { by rewrite Hk2. }
    by exists s'.
Qed.

(** On every Notebook, whenever executing its eligible cells (type code,
    source not empty once stripped) one after the other in document
    order returns a Response record for each, whatever their statuses,
    run-all answers [ok] with exactly those Responses in that order, one
    for each eligible cell, and has dealt with the kernel exactly as
    that sequence of executions does. *)
Theorem run_all_executes_eligible_cells_in_order (s s_e : server)
    (cells responses : list json) (data : json) :
  notebook_cells (current_notebook s) = Some cells ->
  forallb is_cell cells = true ->
  execute_each (List.filter eligible cells) s = (Ok responses, s_e) ->
  forallb is_record responses = true ->
  exists s',
    post_run_all data s
    = (Ok (Reply 200 (JDict [("status", JStr "ok");
                             ("results", JList responses)])), s') /\
    List.length responses = List.length (List.filter eligible cells) /\
    kernel_view s' = kernel_view s_e.
Proof.
  intros (d & Hnb & Hd)%notebook_cells_inv Hcells Hex Hrec.
  destruct (run_all_loop_spec cells 0%nat s s s_e responses Hcells eq_refl Hex Hrec)
    as (s' & E & Hk).
  exists s'. split; [|split; [by eapply execute_each_length|done]].
  unfold post_run_all, bind, get_notebook. rewrite Hnb.
  rewrite (assoc_some_truthy _ _ _ Hd). unfold lift.
  cbn [py_getitem]. rewrite Hd. cbn [py_iter]. by rewrite E.
Qed.

(** * The rest of the kernel manager *)

Ltac unfold_kernel :=
  unfold stop, restart, reset, execute, shut_down, start, spawn_checked,
    check_ready, is_dead, is_alive, the_process, do_popen, do_poll, do_write,
    do_flush, do_readline, do_wait, do_kill, syscall, total, bind, try_except,
    lift, ret, raise, get_process, set_process, set_execution_count in *.

(** [stop] from every state: it returns with no process left, having done
    nothing when there was none, polled a dead one, and sent the shutdown
    request to a running one; it raises only when the [kill] of its
    handler raises, and the process then stays the kernel's.  It leaves
    the counter and the notebook alone. *)
Theorem stop_clears_the_handle (s : server) :
  exists r s' evs,
    stop s = (r, s') /\
    trace s' = trace s ++ evs /\
    execution_count s' = execution_count s /\
    current_notebook s' = current_notebook s /\
    match r with
    | Ok _ => process s' = None
    | Raise _ => exists h, process s = Some h /\ process s' = Some h /\
                           last evs = Some (EvKill h)
    end /\
    match process s with
    | None => evs = []
    | Some h =>
        if fst (poll h (outside s))
        then exists rest,
               evs = EvPoll h :: EvWrite h (request_line shutdown_request) :: rest
        else evs = [EvPoll h]
    end.
Proof.
  unfold_kernel. sproj.
  destruct (process s) as [h|] eqn:Ep.
  - destruct (poll h (outside s)) as [running w1] eqn:Epoll. sproj.
    destruct running; sproj.
    + repeat case_step;
        (no_units; eexists _, _, _; split; [reflexivity|]; sproj;
         split; [rewrite <- ?app_assoc; reflexivity|];
         repeat split; eauto).
    + eexists _, _, _. split; [reflexivity|]. sproj. done.
  - eexists _, _, []. split; [reflexivity|]. sproj. by rewrite app_nil_r.
Qed.

(** Once [stop] has returned, the status handler answers that the kernel
    is not alive, and asks the operating system nothing. *)
Theorem status_after_stop (s s1 : server) :
  stop s = (Ok tt, s1) ->
  get_kernel_status s1 = (Ok (Reply 200 (JDict [("alive", JBool false)])), s1).
Proof.
  intros Hstop.
  assert (Hp : process s1 = None).
  { revert Hstop. unfold_kernel. sproj.
    repeat case_step; intros [= <-]; reflexivity. }
  unfold get_kernel_status. unfold_kernel. by rewrite Hp.
Qed.

(** The counter of the kernel manager is never incremented: [start],
    [stop] and [execute] leave it as it is, [reset] leaves it or zeroes
    it, and [restart] zeroes it. *)
Theorem kernel_manager_never_counts (s : server) (cell_id code : json) :
  execution_count (snd (start s)) = execution_count s /\
  execution_count (snd (stop s)) = execution_count s /\
  execution_count (snd (execute cell_id code s)) = execution_count s /\
  (execution_count (snd (reset s)) = execution_count s \/
   execution_count (snd (reset s)) = 0) /\
  execution_count (snd (restart s)) = 0.
Proof.
  repeat split.
  - unfold_kernel. sproj. repeat case_step; reflexivity.
  - unfold_kernel. sproj. repeat case_step; reflexivity.
  - unfold_kernel. sproj. repeat case_step; reflexivity.
  - unfold_kernel. sproj. repeat case_step; auto.
  - unfold_kernel. sproj. repeat case_step; reflexivity.
Qed.

(** A [start] that raises after [Popen] succeeded leaves the child it has
    just rejected as the kernel's process: [start] assigns the process
    before it reads the ready line and, unlike [restart] and [reset],
    never clears it.  When [Popen] itself raises, the process is the one
    there was. *)
Theorem start_keeps_the_child_it_rejects (s s' : server) (e : exn) :
  start s = (Raise e, s') ->
  exists polled,
    (polled = [] \/ exists h0, polled = [EvPoll h0]) /\
    ((trace s' = trace s ++ polled ++ [EvPopen] /\ process s' = process s) \/
     (exists h, trace s' = trace s ++ polled ++ [EvPopen; EvReadline h] /\
                process s' = Some h)).
Proof.
  unfold_kernel. sproj.
  repeat case_step; intros [= <- <-]; sproj;
    rewrite <- ?app_assoc;
    first [ exists []; split; [by left|];
            first [ left; split; [by rewrite ?app_nil_r| congruence]
                  | right; eexists; split; [by rewrite ?app_nil_r|reflexivity] ]
          | eexists [_]; split; [right; by eexists|];
            first [ left; split; [reflexivity|congruence]
                  | right; eexists; split; reflexivity ] ].
Qed.

(** A second [start] after a successful one finds the process and only
    polls it, as long as it runs. *)
Theorem start_is_idempotent (s s1 : server) :
  start s = (Ok tt, s1) ->
  exists h,
    process s1 = Some h /\
    forall w, poll h (outside s1) = (true, w) ->
      start s1
      = (Ok tt,
         Server (Some h) (execution_count s1) (current_notebook s1)
           (current_notebook_path s1) (files s1) w (trace s1 ++ [EvPoll h])).
Proof.
  intros Hstart.
  assert (Hp : exists h, process s1 = Some h).
  { revert Hstart. unfold_kernel. sproj.
    repeat case_step; intros [= <-]; sproj; eauto. }
  destruct Hp as [h Hp]. exists h. split; [done|].
  intros w Hw. clear Hstart. unfold_kernel. sproj. rewrite Hp, Hw. sproj.
  by rewrite Hp.
Qed.

(** The exchange of [execute] with a running kernel that answers: one
    poll, the request line, a flush and one line read, whose decoded
    value is returned; nothing else of the server changes. *)
Theorem execute_returns_the_reply (s : server) (h : handle)
    (cell_id code : json) (w1 w2 w3 w4 : world) (line : string) (reply : json) :
  process s = Some h ->
  poll h (outside s) = (true, w1) ->
  stdin_write h (request_line (execute_request cell_id code)) w1 = (Ok tt, w2) ->
  stdin_flush h w2 = (Ok tt, w3) ->
  stdout_readline h w3 = (Ok line, w4) ->
  is_empty (strip line) = false ->
  json_loads (strip line) = Ok reply ->
  execute cell_id code s
  = (Ok reply,
     Server (Some h) (execution_count s) (current_notebook s)
       (current_notebook_path s) (files s) w4
       (trace s ++ [EvPoll h;
                    EvWrite h (request_line (execute_request cell_id code));
                    EvFlush h; EvReadline h])).
Proof.
  intros Ep Epoll Ew Ef Er Hne Hl.
  unfold request_line in *. unfold_kernel. sproj.
  repeat (progress (rewrite ?Ep, ?Epoll, ?Ew, ?Ef, ?Er, ?Hne, ?Hl; sproj)).
  by rewrite <- !app_assoc.
Qed.

(** [execute] never kills a process and never waits for one: the kernel
    it gives up after a failed exchange is left to itself. *)
Theorem execute_never_signals (s : server) (cell_id code : json) :
  exists evs,
    trace (snd (execute cell_id code s)) = trace s ++ evs /\
    forallb quiet evs = true.
Proof.
  unfold_kernel. sproj.
  repeat case_step;
    (eexists; split; [rewrite <- ?app_assoc; reflexivity|reflexivity]).
Qed.

(** With a running kernel [execute] always returns.  Either the exchange
    succeeds, no process is started and the kernel stays; or it fails,
    the Response is the error record made from the exception, and
    exactly one new kernel is tried. *)
Theorem execute_restarts_once_after_a_failure (s : server) (h : handle)
    (cell_id code : json) :
  process s = Some h ->
  fst (poll h (outside s)) = true ->
  exists r s' evs,
    execute cell_id code s = (Ok r, s') /\
    trace s' = trace s ++ evs /\
    ((evs = [EvPoll h;
             EvWrite h (request_line (execute_request cell_id code));
             EvFlush h; EvReadline h] /\
      process s' = Some h) \/
     (List.length (List.filter is_spawn evs) = 1%nat /\
      exists e, r = kernel_error cell_id e)).
Proof.
  intros Hp Hpoll. unfold request_line. unfold_kernel. sproj. rewrite Hp.
  destruct (poll h (outside s)) as [running w] eqn:E. sproj. subst running.
  sproj. rewrite ?Hp. sproj.
  repeat case_step;
    (eexists _, _, _; split; [reflexivity|]; sproj;
     split; [rewrite <- ?app_assoc; reflexivity|];
     first [ left; split; [reflexivity|by rewrite ?Hp]
           | right; split; [reflexivity|]; eexists; reflexivity ]).
Qed.

(** ** The kernel handlers *)

Lemma reset_keeps_the_documents (s : server) :
  exists r s',
    reset s = (Ok r, s') /\
    current_notebook s' = current_notebook s /\
    current_notebook_path s' = current_notebook_path s /\
    files s' = files s.
Proof.
  unfold_kernel. sproj.
  repeat case_step; (eexists _, _; split; [reflexivity|]; by sproj).
Qed.

Lemma execute_keeps_the_documents (s : server) cell_id code :
  current_notebook (snd (execute cell_id code s)) = current_notebook s /\
  current_notebook_path (snd (execute cell_id code s)) = current_notebook_path s /\
  files (snd (execute cell_id code s)) = files s.
Proof.
  unfold_kernel. sproj.
  repeat case_step; by sproj.
Qed.

(** The same failure of a start, through the two handlers: with no
    running kernel and a [Popen] that raises, [/api/kernel/restart]
    answers 500 and [/api/kernel/reset] answers 200, both with the same
    error record and both leaving no process. *)
Theorem restart_answers_500_and_reset_200 (s s1 : server) (e : exn) (w : world) :
  is_dead s = (Ok true, s1) ->
  popen (outside s1) = (Raise e, w) ->
  fst (post_kernel_restart s) = Ok (Reply 500 (error_message e)) /\
  fst (post_kernel_reset s) = Ok (Reply 200 (error_message e)) /\
  process (snd (post_kernel_restart s)) = None /\
  process (snd (post_kernel_reset s)) = None.
Proof.
  unfold post_kernel_restart, post_kernel_reset. unfold_kernel. sproj.
  destruct (process s) as [h|] eqn:Ep.
  - destruct (poll h (outside s)) as [running w1] eqn:Epoll. sproj.
    destruct running; sproj; [done|].
    intros [= <-]. sproj. intros ->. sproj. done.
  - intros [= <-]. intros ->. sproj. done.
Qed.


(** ** Creating a notebook *)

(** [/api/notebook/new] always answers 200 with a new document, whatever
    the reset of the kernel does: the title of the request or Untitled,
    two readings of the clock, one new empty code cell; the path of the
    old notebook is forgotten and no file is touched. *)
Theorem new_notebook_replaces_the_document (s : server)
    (data : list (string * json)) :
  let w1 := snd (utcnow (outside s)) in
  let w2 := snd (utcnow w1) in
  let nb := blank_notebook (field data "title" (JStr "Untitled"))
              (fst (utcnow (outside s))) (fst (utcnow w1)) (fst (uuid4 w2)) in
  exists s',
    post_notebook_new (JDict data) s = (Ok (Reply 200 nb), s') /\
    current_notebook s' = nb /\
    notebook_ok nb = true /\
    current_notebook_path s' = JNull /\
    files s' = files s.
Proof.
  intros w1 w2 nb. subst w1 w2 nb.
  unfold post_notebook_new, new_notebook, do_utcnow, do_uuid4, syscall, total,
    set_notebook, set_notebook_path, get_notebook, bind, lift, ret.
  cbn [py_get]. sproj. fold (field data "title" (JStr "Untitled")).
  destruct (utcnow (outside s)) as [created w1]. sproj.
  destruct (utcnow w1) as [modified w2]. sproj.
  destruct (uuid4 w2) as [id w3]. sproj.
  match goal with |- context [reset ?s1] =>
    destruct (reset_keeps_the_documents s1) as (r & s' & -> & Hnb & Hpath & Hfiles)
  end.
  sproj. exists s'. by rewrite Hnb.
Qed.

(** GET [/api/notebook] makes a notebook only when there is none: it
    answers with the current notebook, never with [None], leaves a
    server that has a notebook unchanged, and gives the same answer when
    asked again. *)
Theorem get_notebook_creates_once (s : server) :
  exists nb s',
    get_api_notebook s = (Ok (Reply 200 nb), s') /\
    current_notebook s' = nb /\
    nb <> JNull /\
    (current_notebook s <> JNull -> s' = s) /\
    get_api_notebook s' = (Ok (Reply 200 nb), s').
Proof.
  unfold get_api_notebook, new_notebook, do_utcnow, do_uuid4, syscall, total,
    set_notebook, get_notebook, bind, ret. sproj.
  destruct (current_notebook s) eqn:Enb; sproj;
    try (eexists _, s; rewrite Enb; by repeat split).
  destruct (utcnow (outside s)) as [created w1]. sproj.
  destruct (utcnow w1) as [modified w2]. sproj.
  destruct (uuid4 w2) as [id w3]. sproj.
  eexists _, _. split; [reflexivity|]. sproj. by repeat split.
Qed.

(** ** Moving a cell *)

Lemma swap_cons i j (x : json) l : swap (S i) (S j) (x :: l) = x :: swap i j l.
Proof. unfold swap. simpl. by destruct (l !! i), (l !! j). Qed.

Lemma swap_down_app before (c n : json) after :
  swap (List.length before) (List.length before + 1) (before ++ c :: n :: after)
  = before ++ n :: c :: after.
Proof.
  induction before as [|x before IH]; [done|].
  simpl. rewrite swap_cons. by rewrite IH.
Qed.

Lemma swap_up_app b (p c : json) after :
  swap (S (List.length b)) (List.length b) (b ++ p :: c :: after)
  = b ++ c :: p :: after.
Proof.
  induction b as [|x b IH]; [done|].
  simpl. rewrite swap_cons. by rewrite IH.
Qed.

Lemma swap_adjacent_perm i (l : list json) :
  swap i (S i) l ≡ₚ l /\ swap (S i) i l ≡ₚ l.
Proof.
  revert i. induction l as [|x l IH]; intros i.
  - unfold swap. by destruct i.
  - destruct i as [|i].
    + destruct l as [|y l]; [done|]. split; apply perm_swap.
    + rewrite !swap_cons. destruct (IH i) as [H1 H2]. split; by f_equiv.
Qed.

Lemma move_loop_found cell_id direction all before c after id : forall i,
  id_absent cell_id before = true ->
  py_getitem c "id" = Ok id ->
  py_eq id cell_id = true ->
  move_loop cell_id direction i all (before ++ c :: after)
  = Ok (let j := (i + List.length before)%nat in
        if py_eq direction (JStr "up") && (0 <? j)%nat then swap j (j - 1) all
        else if py_eq direction (JStr "down") && (j <? List.length all - 1)%nat
             then swap j (j + 1) all
             else all).
Proof.
  induction before as [|x before IH]; intros i Habs Hid Heq.
  - cbn [app move_loop]. rewrite Hid. cbn [rbind]. rewrite Heq.
    cbn [List.length]. rewrite Nat.add_0_r.
    by destruct (py_eq direction (JStr "up") && (0 <? i)%nat),
         (py_eq direction (JStr "down") && (i <? List.length all - 1)%nat).
  - cbn in Habs. apply andb_prop in Habs as [Hx Habs].
    cbn [app move_loop].
    destruct (py_getitem x "id") as [idx|]; [|done]. cbn [rbind].
    apply negb_true_iff in Hx. rewrite Hx.
    rewrite (IH (S i) Habs Hid Heq). cbn [List.length].
    by replace (S i + List.length before)%nat
      with (i + S (List.length before))%nat by lia.
Qed.

Lemma move_loop_perm cell_id direction all cells : forall i,
  forallb is_cell cells = true ->
  exists l, move_loop cell_id direction i all cells = Ok l /\ l ≡ₚ all.
Proof.
  induction cells as [|c cells IH]; intros i Hcells.
  - by exists all.
  - cbn in Hcells. apply andb_prop in Hcells as [Hc Hcells].
    destruct (is_cell_fields c Hc) as (d & _ & Hid & _).
    cbn [move_loop]. rewrite Hid. cbn [rbind].
    destruct (py_eq _ cell_id); [|by apply IH].
    destruct (py_eq direction (JStr "up") && (0 <? i)%nat) eqn:E1.
    + eexists. split; [done|]. apply andb_prop in E1 as [_ Hi].
      apply Nat.ltb_lt in Hi. destruct i as [|i]; [lia|].
      simpl. rewrite Nat.sub_0_r. apply swap_adjacent_perm.
    + destruct (py_eq direction (JStr "down") && _).
      * eexists. split; [done|]. replace (i + 1)%nat with (S i) by lia.
        apply swap_adjacent_perm.
      * by exists all.
Qed.

Lemma dict_set_twice {V} k (v v' : V) d :
  dict_set k v (dict_set k v' d) = dict_set k v d.
Proof.
  induction d as [|[k0 v0] d IH]; simpl.
  - by rewrite String.eqb_refl.
  - destruct (String.eqb k k0) eqn:E; simpl.
    + by rewrite String.eqb_refl.
    + by rewrite E, IH.
Qed.

Lemma post_cell_move_run (s : server) d cells (data : list (string * json)) l :
  current_notebook s = JDict d ->
  assoc "cells" d = Some (JList cells) ->
  move_loop (field data "cell_id" (JStr "")) (field data "direction" (JStr "down"))
    0 cells cells = Ok l ->
  post_cell_move (JDict data) s
  = (Ok (Reply 200 (JDict [("status", JStr "moved")])),
     Server (process s) (execution_count s)
       (JDict (dict_set "cells" (JList l) d))
       (current_notebook_path s) (files s) (outside s) (trace s)).
Proof.
  intros Hnb Hd Hl.
  unfold post_cell_move, bind, get_notebook. rewrite Hnb.
  rewrite (assoc_some_truthy _ _ _ Hd). unfold lift.
  cbn [py_get py_getitem]. rewrite Hd. cbn [py_iter].
  fold (field data "cell_id" (JStr "")) (field data "direction" (JStr "down")).
  rewrite Hl. unfold put_cells, bind, get_notebook. rewrite Hnb, Hd.
  unfold set_notebook, ret. done.
Qed.

(** [/api/cell/move] on the first cell that has the id: up exchanges it
    with the cell before it and down with the cell after it; at the end
    of the list in that direction, and for any other direction, the list
    stays as it is.  Nothing but the cell list changes. *)
Theorem move_swaps_with_the_neighbour (s : server)
    (data : list (string * json)) (before after : list json) (c id : json) :
  let cell_id := field data "cell_id" (JStr "") in
  let direction := field data "direction" (JStr "down") in
  notebook_cells (current_notebook s) = Some (before ++ c :: after) ->
  id_absent cell_id before = true ->
  py_getitem c "id" = Ok id ->
  py_eq id cell_id = true ->
  exists s' cells',
    post_cell_move (JDict data) s
    = (Ok (Reply 200 (JDict [("status", JStr "moved")])), s') /\
    current_notebook s' = with_cells (current_notebook s) cells' /\
    kernel_view s' = kernel_view s /\
    (direction = JStr "up" ->
     (before = [] -> cells' = c :: after) /\
     (forall b p, before = b ++ [p] -> cells' = b ++ c :: p :: after)) /\
    (direction = JStr "down" ->
     (after = [] -> cells' = before ++ [c]) /\
     (forall n a, after = n :: a -> cells' = before ++ n :: c :: a)) /\
    (py_eq direction (JStr "up") = false ->
     py_eq direction (JStr "down") = false ->
     cells' = before ++ c :: after).
Proof.
  intros cell_id direction (d & Hnb & Hd)%notebook_cells_inv Habs Hid Heq.
  pose proof (move_loop_found cell_id direction (before ++ c :: after)
                before c after id 0%nat Habs Hid Heq) as Hl.
  cbv zeta in Hl. rewrite Nat.add_0_l in Hl.
  rewrite (post_cell_move_run s d _ data _ Hnb Hd Hl).
  eexists _, _. split; [reflexivity|]. sproj.
  split; [by rewrite ?Hnb|]. split; [done|].
  split; [|split].
  - intros ->. cbn [py_eq String.eqb Ascii.eqb Bool.eqb andb]. split.
    + intros ->. done.
    + intros b p ->. rewrite length_app. cbn [List.length].
      replace (List.length b + 1)%nat with (S (List.length b)) by lia.
      cbn [Nat.ltb Nat.leb Nat.sub]. rewrite Nat.sub_0_r.
      rewrite <- app_assoc. cbn [app]. apply swap_up_app.
  - intros ->. cbn [py_eq String.eqb Ascii.eqb Bool.eqb andb]. split.
    + intros ->. rewrite length_app. cbn [List.length].
      replace (List.length before + 1 - 1)%nat with (List.length before) by lia.
      by rewrite Nat.ltb_irrefl.
    + intros n a ->. rewrite length_app. cbn [List.length].
      assert (Hlt : (List.length before
                     <? List.length before + S (S (List.length a)) - 1)%nat = true)
        by (apply Nat.ltb_lt; lia).
      rewrite Hlt. apply swap_down_app.
  - intros -> ->. done.
Qed.

(** Moving a cell up and then down again gives back the server as it
    was, when the cell is not the first and its id is that of no cell
    before it. *)
Theorem move_up_then_down_restores (s : server)
    (up down : list (string * json)) (b after : list json) (p c id cell_id : json) :
  field up "cell_id" (JStr "") = cell_id ->
  field down "cell_id" (JStr "") = cell_id ->
  field up "direction" (JStr "down") = JStr "up" ->
  field down "direction" (JStr "down") = JStr "down" ->
  notebook_cells (current_notebook s) = Some (b ++ p :: c :: after) ->
  id_absent cell_id (b ++ [p]) = true ->
  py_getitem c "id" = Ok id ->
  py_eq id cell_id = true ->
  exists s1,
    post_cell_move (JDict up) s
    = (Ok (Reply 200 (JDict [("status", JStr "moved")])), s1) /\
    current_notebook s1
    = with_cells (current_notebook s) (b ++ c :: p :: after) /\
    post_cell_move (JDict down) s1
    = (Ok (Reply 200 (JDict [("status", JStr "moved")])), s).
Proof.
  intros Hup Hdown Hdu Hdd (d & Hnb & Hd)%notebook_cells_inv Habs Hid Heq.
  assert (Hb : id_absent cell_id b = true).
  { unfold id_absent in *. rewrite forallb_app in Habs.
    by apply andb_prop in Habs as [? _]. }
  pose proof (move_loop_found cell_id (JStr "up") (b ++ p :: c :: after)
                (b ++ [p]) c after id 0%nat Habs Hid Heq) as H1.
  cbv zeta in H1. rewrite Nat.add_0_l, length_app in H1. cbn [List.length] in H1.
  replace (List.length b + 1)%nat with (S (List.length b)) in H1 by lia.
  cbn [py_eq String.eqb Ascii.eqb Bool.eqb andb Nat.ltb Nat.leb Nat.sub] in H1.
  rewrite Nat.sub_0_r, swap_up_app in H1.
  rewrite <- app_assoc in H1. cbn [app] in H1.
  eexists. split.
  { apply (post_cell_move_run s d (b ++ p :: c :: after) up
             (b ++ c :: p :: after) Hnb Hd).
    by rewrite Hup, Hdu. }
  sproj. split; [by rewrite ?Hnb|].
  pose proof (move_loop_found cell_id (JStr "down") (b ++ c :: p :: after)
                b c (p :: after) id 0%nat Hb Hid Heq) as H2.
  cbv zeta in H2. rewrite Nat.add_0_l, length_app in H2. cbn [List.length] in H2.
  cbn [py_eq String.eqb Ascii.eqb Bool.eqb andb] in H2.
  assert (Hlt : (List.length b
                 <? List.length b + S (S (List.length after)) - 1)%nat = true)
    by (apply Nat.ltb_lt; lia).
  rewrite Hlt, swap_down_app in H2.
  erewrite post_cell_move_run; [| reflexivity | apply assoc_dict_set_eq
                                | by rewrite Hdown, Hdd ].
  sproj. rewrite dict_set_twice, (dict_set_same _ _ _ Hd), <- Hnb.
  by rewrite server_eta.
Qed.

(** ** Changing the type of a cell *)

Lemma retype_loop_found cell_id new_type before d after id :
  id_absent cell_id before = true ->
  assoc "id" d = Some id ->
  py_eq id cell_id = true ->
  retype_loop cell_id new_type (before ++ JDict d :: after)
  = Ok (before ++
        JDict (dict_set "execution_count" JNull
                 (dict_set "outputs" (JList [])
                    (dict_set "type" new_type d))) :: after).
Proof.
  intros Habs Hid Heq. induction before as [|x before IH].
  - cbn [app retype_loop py_getitem]. rewrite Hid. cbn [rbind]. by rewrite Heq.
  - cbn in Habs. apply andb_prop in Habs as [Hx Habs].
    cbn [app retype_loop].
    destruct (py_getitem x "id") as [idx|]; [|done]. cbn [rbind].
    apply negb_true_iff in Hx. rewrite Hx. by rewrite (IH Habs).
Qed.

(** [/api/cell/type] on the first cell that has the id: the cell takes
    the type of the request ([code] when it names none), loses its
    outputs and its execution count, and keeps its other fields; the
    cells around it and the rest of the server stay as they are. *)
Theorem retype_clears_the_results (s : server) (data : list (string * json))
    (before after : list json) (d : list (string * json)) (id : json) :
  let cell_id := field data "cell_id" (JStr "") in
  notebook_cells (current_notebook s) = Some (before ++ JDict d :: after) ->
  id_absent cell_id before = true ->
  assoc "id" d = Some id ->
  py_eq id cell_id = true ->
  exists s' d',
    post_cell_type (JDict data) s
    = (Ok (Reply 200 (JDict [("status", JStr "updated")])), s') /\
    current_notebook s'
    = with_cells (current_notebook s) (before ++ JDict d' :: after) /\
    kernel_view s' = kernel_view s /\
    assoc "type" d' = Some (field data "type" (JStr "code")) /\
    assoc "outputs" d' = Some (JList []) /\
    assoc "execution_count" d' = Some JNull /\
    forall key, key <> "type" -> key <> "outputs" -> key <> "execution_count" ->
                assoc key d' = assoc key d.
Proof.
  intros cell_id (nb & Hnb & Hd)%notebook_cells_inv Habs Hid Heq.
  unfold post_cell_type, bind, get_notebook. rewrite Hnb.
  rewrite (assoc_some_truthy _ _ _ Hd). unfold lift.
  cbn [py_get py_getitem]. rewrite Hd. cbn [py_iter].
  fold (field data "cell_id" (JStr "")) (field data "type" (JStr "code")).
  rewrite (retype_loop_found _ _ _ _ _ _ Habs Hid Heq).
  unfold put_cells, bind, get_notebook. rewrite Hnb, Hd.
  unfold set_notebook, ret.
  eexists _, _. split; [reflexivity|]. sproj.
  split; [by rewrite ?Hnb|]. split; [done|].
  split; [|split; [|split]].
  - rewrite !assoc_dict_set_ne by done. apply assoc_dict_set_eq.
  - rewrite assoc_dict_set_ne by done. apply assoc_dict_set_eq.
  - apply assoc_dict_set_eq.
  - intros key H1 H2 H3. by rewrite !assoc_dict_set_ne.
Qed.

(** ** Adding a cell *)

Lemma add_loop_absent after_id new_cell cells :
  id_absent after_id cells = true -> add_loop after_id new_cell cells = Ok None.
Proof.
  induction cells as [|c cells IH]; [done|].
  cbn. intros [Hc Hcs]%andb_prop.
  destruct (py_getitem c "id") as [id|]; [|done]. cbn.
  apply negb_true_iff in Hc. rewrite Hc. by rewrite (IH Hcs).
Qed.

Lemma add_loop_found after_id new_cell before c after id :
  id_absent after_id before = true ->
  py_getitem c "id" = Ok id ->
  py_eq id after_id = true ->
  add_loop after_id new_cell (before ++ c :: after)
  = Ok (Some (before ++ c :: new_cell :: after)).
Proof.
  intros Habs Hid Heq. induction before as [|x before IH].
  - cbn [app add_loop]. rewrite Hid. cbn [rbind]. by rewrite Heq.
  - cbn in Habs. apply andb_prop in Habs as [Hx Habs].
    cbn [app add_loop].
    destruct (py_getitem x "id") as [idx|]; [|done]. cbn [rbind].
    apply negb_true_iff in Hx. rewrite Hx. by rewrite (IH Habs).
Qed.

(** [/api/cell/add] answers with the new cell, an empty cell of the
    requested type whose id is the next uuid.  The cell goes to the end
    of the list when the request names no [after_id], an empty one, or
    one that no cell has, and right after the first cell that has the
    id otherwise. *)
Theorem add_inserts_after_or_appends (s : server) (data : list (string * json))
    (cells : list json) :
  let after_id := field data "after_id" JNull in
  let new_cell := empty_cell (fst (uuid4 (outside s)))
                    (field data "type" (JStr "code")) in
  notebook_cells (current_notebook s) = Some cells ->
  (py_truthy after_id = false \/ id_absent after_id cells = true ->
   exists s',
     post_cell_add (JDict data) s = (Ok (Reply 200 new_cell), s') /\
     current_notebook s'
     = with_cells (current_notebook s) (cells ++ [new_cell])) /\
  (forall before c after id,
     py_truthy after_id = true ->
     cells = before ++ c :: after ->
     id_absent after_id before = true ->
     py_getitem c "id" = Ok id ->
     py_eq id after_id = true ->
     exists s',
       post_cell_add (JDict data) s = (Ok (Reply 200 new_cell), s') /\
       current_notebook s'
       = with_cells (current_notebook s) (before ++ c :: new_cell :: after)).
Proof.
  intros after_id new_cell (d & Hnb & Hd)%notebook_cells_inv.
  assert (Happend : forall s0 : server,
            current_notebook s0 = JDict d ->
            exists s', append_cell new_cell s0 = (Ok tt, s') /\
                       current_notebook s'
                       = JDict (dict_set "cells" (JList (cells ++ [new_cell])) d)).
  { intros s0 H0. unfold append_cell, bind, get_notebook, lift, set_notebook.
    rewrite H0. cbn [py_getitem]. rewrite Hd. cbn [py_append py_setitem].
    eexists. split; reflexivity. }
  split.
  - intros Hcase.
    unfold post_cell_add, bind, get_notebook. rewrite Hnb.
    rewrite (assoc_some_truthy _ _ _ Hd). unfold lift.
    cbn [py_get]. fold (field data "type" (JStr "code")) (field data "after_id" JNull).
    unfold do_uuid4, syscall, total.
    destruct (uuid4 (outside s)) as [u w] eqn:Eu. sproj.
    subst new_cell. cbn [fst with_cells] in *.
    fold after_id.
    destruct (py_truthy after_id) eqn:Et.
    + destruct Hcase as [?|Habs]; [done|].
      cbn [py_getitem]. rewrite Hd. cbn [py_iter].
      rewrite (add_loop_absent _ _ _ Habs).
      match goal with |- context [append_cell _ ?s0] =>
        destruct (Happend s0 Hnb) as (s' & -> & Hc) end.
      by exists s'.
    + match goal with |- context [append_cell _ ?s0] =>
        destruct (Happend s0 Hnb) as (s' & -> & Hc) end.
      by exists s'.
  - intros before c after id Ht -> Habs Hid Heq.
    unfold post_cell_add, bind, get_notebook. rewrite Hnb.
    rewrite (assoc_some_truthy _ _ _ Hd). unfold lift.
    cbn [py_get]. fold (field data "type" (JStr "code")) (field data "after_id" JNull).
    unfold do_uuid4, syscall, total.
    destruct (uuid4 (outside s)) as [u w] eqn:Eu. sproj.
    subst new_cell. cbn [fst with_cells] in *.
    fold after_id. rewrite Ht.
    cbn [py_getitem]. rewrite Hd. cbn [py_iter].
    rewrite (add_loop_found _ _ _ _ _ _ Habs Hid Heq).
    unfold put_cells, bind, get_notebook. sproj. rewrite Hnb, Hd.
    unfold set_notebook, ret.
    eexists. split; reflexivity.
Qed.

(** ** Deleting cells *)

Lemma remove_cell_filter cell_id cells :
  forallb has_id cells = true ->
  remove_cell cell_id cells = Ok (List.filter (keeps cell_id) cells).
Proof.
  induction cells as [|c cells IH]; simpl; [done|].
  intros [Hc Hcs]%andb_prop. unfold has_id in Hc. unfold keeps at 1, cell_field.
  destruct (py_getitem c "id") as [id|]; [|done]. simpl.
  by rewrite (IH Hcs).
Qed.

Lemma filter_keeps_absent cell_id cells :
  forallb has_id cells = true ->
  id_absent cell_id (List.filter (keeps cell_id) cells) = true.
Proof.
  induction cells as [|c cells IH]; simpl; [done|].
  intros [Hc Hcs]%andb_prop. unfold has_id in Hc. unfold keeps at 1, cell_field.
  destruct (py_getitem c "id") as [id|] eqn:E; [|done].
  destruct (py_eq id cell_id) eqn:Eq; simpl; [by apply IH|].
  rewrite E, Eq. simpl. by apply IH.
Qed.

(** [/api/cell/delete] removes every cell that has the id, not only the
    first, and keeps the others in their order; when a cell remains, no
    cell is made and no uuid drawn, so that nothing but the cell list
    changes, and no cell has the id any more. *)
Theorem delete_removes_every_cell_of_that_id (s : server) (cells : list json)
    (data : list (string * json)) :
  let cell_id := field data "cell_id" (JStr "") in
  notebook_cells (current_notebook s) = Some cells ->
  forallb has_id cells = true ->
  List.filter (keeps cell_id) cells <> [] ->
  exists s',
    post_cell_delete (JDict data) s
    = (Ok (Reply 200 (JDict [("status", JStr "deleted")])), s') /\
    current_notebook s'
    = with_cells (current_notebook s) (List.filter (keeps cell_id) cells) /\
    id_absent cell_id (List.filter (keeps cell_id) cells) = true /\
    kernel_view s' = kernel_view s /\
    files s' = files s.
Proof.
  intros cell_id (d & Hnb & Hd)%notebook_cells_inv Hids Hne.
  unfold post_cell_delete, bind, get_notebook. rewrite Hnb.
  rewrite (assoc_some_truthy _ _ _ Hd). unfold lift.
  cbn [py_get py_getitem]. rewrite Hd. cbn [py_iter].
  fold (field data "cell_id" (JStr "")). fold cell_id.
  rewrite (remove_cell_filter _ _ Hids).
  cbn [py_setitem]. unfold set_notebook at 1. sproj.
  pose proof (filter_keeps_absent cell_id cells Hids) as Habs.
  destruct (List.filter (keeps cell_id) cells) as [|c0 rest] eqn:Ef; [done|].
  cbn [py_truthy negb]. unfold ret.
  eexists. split; [reflexivity|]. sproj. by rewrite ?Hnb.
Qed.

(** ** Writing the result of an execution back *)

Lemma outputs_of_exec_time t r :
  outputs_of (dict_set "exec_time" t r) = outputs_of r.
Proof.
  unfold outputs_of, field. by rewrite !assoc_dict_set_ne.
Qed.

Lemma execute_update_found cell_id code r before d after id :
  id_absent cell_id before = true ->
  assoc "id" d = Some id ->
  py_eq id cell_id = true ->
  exists d',
    execute_update cell_id code (JDict r) (before ++ JDict d :: after)
    = Ok (before ++ JDict d' :: after) /\
    assoc "source" d' = Some code /\
    assoc "outputs" d' = Some (JList (outputs_of r)) /\
    assoc "execution_count" d' = Some (field r "execution_count" JNull) /\
    forall k, k <> "source" -> k <> "outputs" -> k <> "execution_count" ->
              assoc k d' = assoc k d.
Proof.
  intros Habs Hid Heq.
  destruct (store_result_spec (dict_set "source" code d) r)
    as (d' & Es & Ho & Hc & Hk).
  exists d'. split; [|split; [|split; [done|split; [done|]]]].
  - induction before as [|x before IH].
    + cbn [app execute_update py_getitem]. rewrite Hid. cbn [rbind]. rewrite Heq.
      cbn [py_setitem rbind]. by rewrite Es.
    + cbn in Habs. apply andb_prop in Habs as [Hx Habs].
      cbn [app execute_update].
      destruct (py_getitem x "id") as [idx|]; [|done]. cbn [rbind].
      apply negb_true_iff in Hx. rewrite Hx. by rewrite (IH Habs).
  - rewrite Hk by done. apply assoc_dict_set_eq.
  - intros k H1 H2 H3. rewrite Hk by done. by apply assoc_dict_set_ne.
Qed.

Lemma execute_update_absent cell_id code result cells :
  id_absent cell_id cells = true ->
  execute_update cell_id code result cells = Ok cells.
Proof.
  induction cells as [|c cells IH]; [done|].
  cbn. intros [Hc Hcs]%andb_prop.
  destruct (py_getitem c "id") as [id|]; [|done]. cbn.
  apply negb_true_iff in Hc. rewrite Hc. by rewrite (IH Hcs).
Qed.

Lemma execute_update_total cell_id code r cells :
  forallb has_id cells = true ->
  exists cells', execute_update cell_id code (JDict r) cells = Ok cells'.
Proof.
  induction cells as [|c cells IH]; [by exists []|].
  cbn [forallb execute_update]. intros [Hc Hcs]%andb_prop. unfold has_id in Hc.
  destruct c as [| | | | |d]; try done.
  destruct (py_getitem (JDict d) "id") as [id|]; [|done]. cbn [rbind].
  destruct (py_eq id cell_id).
  - cbn [py_setitem rbind].
    destruct (store_result_spec (dict_set "source" code d) r) as (d' & -> & _).
    by eexists.
  - destruct (IH Hcs) as (cells' & ->). by eexists.
Qed.

(** [/api/execute], when the kernel manager returns a Response record:
    the reply is the Response with the time taken added.  The code is
    executed whether or not a cell has the id; with none the notebook
    stays as it is, and otherwise the first cell that has the id takes
    the code of the request as its source, the execution count of the
    Response and the outputs rebuilt from it, and keeps its other
    fields. *)
Theorem execute_handler_writes_back (s s1 : server) (data r : list (string * json))
    (exec_time : json) (cells : list json) :
  let cell_id := field data "cell_id" (JStr "") in
  let code := field data "code" (JStr "") in
  execute cell_id code s = (Ok (JDict r), s1) ->
  notebook_cells (current_notebook s) = Some cells ->
  forallb has_id cells = true ->
  exists s',
    post_execute (JDict data) exec_time s
    = (Ok (Reply 200 (JDict (dict_set "exec_time" exec_time r))), s') /\
    kernel_view s' = kernel_view s1 /\
    (id_absent cell_id cells = true -> current_notebook s' = current_notebook s) /\
    (forall before d after id,
       cells = before ++ JDict d :: after ->
       id_absent cell_id before = true ->
       assoc "id" d = Some id ->
       py_eq id cell_id = true ->
       exists d',
         current_notebook s'
         = with_cells (current_notebook s) (before ++ JDict d' :: after) /\
         assoc "source" d' = Some code /\
         assoc "outputs" d' = Some (JList (outputs_of r)) /\
         assoc "execution_count" d' = Some (field r "execution_count" JNull) /\
         forall k, k <> "source" -> k <> "outputs" -> k <> "execution_count" ->
                   assoc k d' = assoc k d).
Proof.
  intros cell_id code Hex (nb & Hnb & Hd)%notebook_cells_inv Hids.
  pose proof (execute_keeps_the_documents s cell_id code) as (Hk1 & Hk2 & Hk3).
  rewrite Hex in Hk1, Hk2, Hk3. sproj.
  unfold post_execute, bind at 1, lift at 1. cbn [py_get].
  fold (field data "cell_id" (JStr "")). fold cell_id.
  unfold bind at 1, lift at 1. fold (field data "code" (JStr "")). fold code.
  unfold bind at 1. rewrite Hex.
  unfold bind, lift, get_notebook. cbn [py_setitem]. rewrite Hk1, Hnb.
  rewrite (assoc_some_truthy _ _ _ Hd).
  cbn [py_getitem]. rewrite Hd. cbn [py_iter].
  destruct (execute_update cell_id code (JDict (dict_set "exec_time" exec_time r)) cells)
    as [cells'|e] eqn:Eu.
  - unfold put_cells, bind, get_notebook. rewrite Hk1, Hnb, Hd.
    unfold set_notebook, ret. eexists. split; [reflexivity|]. sproj.
    split; [done|]. split.
    + intros Habs. rewrite (execute_update_absent _ _ _ _ Habs) in Eu.
      injection Eu as <-. by rewrite (dict_set_same _ _ _ Hd).
    + intros before d after id -> Habs Hid Heq.
      destruct (execute_update_found cell_id code (dict_set "exec_time" exec_time r)
                  before d after id Habs Hid Heq) as (d' & E' & H').
      rewrite E' in Eu. injection Eu as <-.
      exists d'. split; [done|].
      rewrite outputs_of_exec_time in H'.
      unfold field in H' |- *. rewrite assoc_dict_set_ne in H' by done. exact H'.
  - destruct (execute_update_total cell_id code
                (dict_set "exec_time" exec_time r) cells Hids) as (? & E').
    congruence.
Qed.

Lemma insert_middle (pre : list json) c c' rest :
  <[List.length pre := c']> (pre ++ c :: rest) = pre ++ c' :: rest.
Proof. induction pre as [|x pre IH]; [done|]. simpl. by rewrite IH. Qed.

Lemma run_all_loop_writes cells : forall pre (s s0 s_e : server) responses d,
  forallb is_cell cells = true ->
  kernel_view s = kernel_view s0 ->
  execute_each (List.filter eligible cells) s0 = (Ok responses, s_e) ->
  forallb is_record responses = true ->
  current_notebook s = JDict d ->
  assoc "cells" d = Some (JList (pre ++ cells)) ->
  exists s',
    run_all_loop (List.length pre) cells s = (Ok responses, s') /\
    current_notebook s'
    = JDict (dict_set "cells" (JList (pre ++ write_back cells responses)) d) /\
    current_notebook_path s' = current_notebook_path s /\
    files s' = files s.
Proof.
  induction cells as [|c cells IH];
    intros pre s s0 s_e responses d Hcells Hk Hex Hrec Hnb Hd.
  - simpl in *. unfold ret in *. injection Hex as <- <-. exists s.
    split; [done|]. by rewrite (dict_set_same _ _ _ Hd).
  - simpl in Hcells. apply andb_prop in Hcells as [Hc Hcells].
    cbn [run_all_loop List.filter write_back] in *.
    unfold bind at 1. unfold lift at 1. rewrite (runnable_eligible c Hc).
    destruct (eligible c) eqn:El.
    + destruct (is_cell_fields c Hc) as (dc & Hdc & Hid & Hsrc).
      cbn [execute_each] in Hex. unfold bind in Hex.
      unfold bind, lift. rewrite Hid, Hsrc.
      destruct (kernel_only_execute (cell_field c "id") (cell_field c "source")
                  s s0 Hk) as [H1 H2].
      pose proof (execute_keeps_the_documents s (cell_field c "id")
                    (cell_field c "source")) as (Hd1 & Hd2 & Hd3).
      destruct (execute (cell_field c "id") (cell_field c "source") s0)
        as [[response|e] s0'] eqn:E0; [|done].
      destruct (execute (cell_field c "id") (cell_field c "source") s)
        as [r' s1] eqn:E1. sproj. subst r'.
      destruct (execute_each (List.filter eligible cells) s0')
        as [[rest|e] s_e'] eqn:Erest; [|done].
      unfold ret in Hex. injection Hex as <- <-.
      simpl in Hrec. apply andb_prop in Hrec as [Hr Hrest].
      destruct response as [| | | | |r]; try done.
      unfold stored. subst c.
      destruct (store_result_spec dc r) as (d' & -> & _).
      unfold put_cell, bind, get_notebook. rewrite Hd1, Hnb, Hd.
      unfold set_notebook at 1. sproj.
      rewrite insert_middle.
      match goal with |- context [run_all_loop _ _ ?s2] =>
        destruct (IH (pre ++ [JDict d']) s2 s0' s_e' rest
                    (dict_set "cells" (JList (pre ++ JDict d' :: cells)) d)
                    Hcells H2 Erest Hrest eq_refl) as (s' & E' & Hnb' & Hp' & Hf')
      end.
      { rewrite <- app_assoc. apply assoc_dict_set_eq. }
      rewrite length_app in E'. cbn [List.length] in E'.
      replace (List.length pre + 1)%nat with (S (List.length pre)) in E' by lia.
      rewrite E'. unfold ret. exists s'. split; [done|].
      sproj. rewrite Hnb', dict_set_twice, <- app_assoc.
      split; [done|]. split; congruence.
    + destruct (IH (pre ++ [c]) s s0 s_e responses d Hcells Hk Hex Hrec Hnb)
        as (s' & E' & Hnb' & Hp' & Hf').
      { by rewrite <- app_assoc. }
      rewrite length_app in E'. cbn [List.length] in E'.
      replace (List.length pre + 1)%nat with (S (List.length pre)) in E' by lia.
      exists s'. split; [done|]. rewrite Hnb', <- app_assoc. done.
Qed.

(** What run-all leaves in the notebook, whenever the executions return
    a Response record for each eligible cell: every eligible cell holds
    its own Response, the first cell the first Response and so on, the
    other cells and the other fields of the notebook are as they were,
    and neither the path nor the files change. *)
Theorem run_all_stores_each_response_in_its_cell (s s_e : server)
    (cells responses : list json) (data : json) :
  notebook_cells (current_notebook s) = Some cells ->
  forallb is_cell cells = true ->
  execute_each (List.filter eligible cells) s = (Ok responses, s_e) ->
  forallb is_record responses = true ->
  current_notebook (snd (post_run_all data s))
  = with_cells (current_notebook s) (write_back cells responses) /\
  List.length (write_back cells responses) = List.length cells /\
  current_notebook_path (snd (post_run_all data s)) = current_notebook_path s /\
  files (snd (post_run_all data s)) = files s.
Proof.
  intros (d & Hnb & Hd)%notebook_cells_inv Hcells Hex Hrec.
  destruct (run_all_loop_writes cells [] s s s_e responses d Hcells eq_refl Hex
              Hrec Hnb Hd) as (s' & E & Hnb' & Hp & Hf).
  unfold post_run_all, bind, get_notebook. rewrite Hnb.
  rewrite (assoc_some_truthy _ _ _ Hd). unfold lift.
  cbn [py_getitem]. rewrite Hd. cbn [py_iter]. cbn [List.length] in E.
  rewrite E. unfold ret. sproj. rewrite Hnb'.
  split; [done|]. split; [|done].
  apply execute_each_length in Hex. clear - Hex. revert responses Hex.
  induction cells as [|c cells IH]; intros responses; [done|].
  cbn [write_back List.filter]. destruct (eligible c).
  - destruct responses as [|r rs]; [done|]. cbn [List.length].
    intros [= H]. by rewrite IH.
  - cbn [List.length]. intros H. by rewrite IH.
Qed.

(** ** Saving when the file cannot be written *)

(** [save_notebook] stamps the notebook before it opens the file: when
    [open] raises, the exception goes to the caller and no file is
    written, but the notebook in memory carries the new [modified]
    stamp; its other metadata and its cells are as they were. *)
Theorem save_stamps_before_it_opens (s : server) (filepath : string)
    (d m : list (string * json)) (e : exn) (w : world) :
  current_notebook s = JDict d ->
  assoc "metadata" d = Some (JDict m) ->
  open_w filepath (snd (utcnow (outside s))) = (Raise e, w) ->
  exists s',
    save_notebook filepath s = (Raise e, s') /\
    files s' = files s /\
    metadata_field (current_notebook s') "modified"
    = Some (JStr (fst (utcnow (outside s)) +:+ "Z")) /\
    (forall key, key <> "modified" ->
       metadata_field (current_notebook s') key
       = metadata_field (current_notebook s) key) /\
    notebook_cells (current_notebook s') = notebook_cells (current_notebook s).
Proof.
  intros Hnb Hmd Hopen.
  unfold save_notebook, bind, get_notebook, do_utcnow, do_open_w, syscall,
    total, lift, get_files, set_notebook, set_files. sproj.
  destruct (utcnow (outside s)) as [now w0] eqn:Enow. sproj.
  rewrite Hnb. cbn [py_getitem]. rewrite Hmd. cbn [py_setitem]. sproj.
  rewrite Hopen. eexists. split; [reflexivity|]. sproj.
  split; [done|].
  unfold metadata_field, notebook_cells. rewrite assoc_dict_set_eq, Hmd.
  split; [apply assoc_dict_set_eq|]. split.
  - intros key Hk. by rewrite assoc_dict_set_ne.
  - by rewrite assoc_dict_set_ne.
Qed.

(** ** The Notebook invariant *)

Lemma notebook_ok_inv nb :
  notebook_ok nb = true ->
  exists d cells,
    nb = JDict d /\ assoc "cells" d = Some (JList cells) /\
    forallb is_cell cells = true /\ cells <> [].
Proof.
  unfold notebook_ok. destruct (notebook_cells nb) as [[|c cells]|] eqn:E; try done.
  apply notebook_cells_inv in E as (d & -> & Hd). intros H.
  by exists d, (c :: cells).
Qed.

Lemma notebook_ok_set d cells :
  forallb is_cell cells = true -> cells <> [] ->
  notebook_ok (JDict (dict_set "cells" (JList cells) d)) = true.
Proof.
  intros Hc Hne. unfold notebook_ok, notebook_cells. rewrite assoc_dict_set_eq.
  by destruct cells.
Qed.

Lemma forallb_perm (f : json -> bool) l l' :
  l ≡ₚ l' -> forallb f l' = true -> forallb f l = true.
Proof.
  intros Hp H. apply forallb_forall. intros x Hx.
  rewrite forallb_forall in H. apply H.
  apply list_elem_of_In. rewrite <- Hp. by apply list_elem_of_In.
Qed.

Lemma forallb_filter (f g : json -> bool) l :
  forallb g l = true -> forallb g (List.filter f l) = true.
Proof.
  induction l as [|x l IH]; [done|]. cbn. intros [Hx Hl]%andb_prop.
  destruct (f x); cbn; rewrite ?Hx; by apply IH.
Qed.

Lemma add_loop_cells after_id new_cell cells :
  forallb is_cell cells = true -> is_cell new_cell = true ->
  exists r, add_loop after_id new_cell cells = Ok r /\
            match r with
            | Some l => forallb is_cell l = true /\ l <> []
            | None => True
            end.
Proof.
  intros Hcells Hn. induction cells as [|c cells IH]; [by exists None|].
  cbn in Hcells. apply andb_prop in Hcells as [Hc Hcells].
  destruct (is_cell_fields c Hc) as (d & _ & Hid & _).
  cbn [add_loop]. rewrite Hid. cbn [rbind].
  destruct (py_eq _ after_id).
  - eexists. split; [done|]. split; [|done]. cbn. by rewrite Hc, Hn, Hcells.
  - destruct (IH Hcells) as ([l|] & -> & Hl); cbn [rbind].
    + eexists. split; [done|]. destruct Hl as [Hl _]. split; [|done].
      cbn. by rewrite Hc, Hl.
    + by exists None.
Qed.

Lemma is_cell_set d k v :
  k <> "id" -> k <> "source" ->
  is_cell (JDict d) = true -> is_cell (JDict (dict_set k v d)) = true.
Proof.
  intros H1 H2. unfold is_cell. cbn [py_getitem].
  rewrite (assoc_dict_set_ne k "id"), (assoc_dict_set_ne k "source") by done.
  destruct (assoc "id" d); [|done].
  destruct (String.eqb k "type") eqn:E.
  - apply String.eqb_eq in E as ->. rewrite assoc_dict_set_eq.
    by destruct (assoc "type" d).
  - apply String.eqb_neq in E. by rewrite assoc_dict_set_ne.
Qed.

Lemma retype_loop_cells cell_id new_type cells :
  forallb is_cell cells = true ->
  exists l, retype_loop cell_id new_type cells = Ok l /\
            forallb is_cell l = true /\ List.length l = List.length cells.
Proof.
  induction cells as [|c cells IH]; [by exists []|].
  cbn [forallb]. intros [Hc Hcells]%andb_prop.
  destruct (is_cell_fields c Hc) as (d & -> & Hid & _).
  cbn [retype_loop]. rewrite Hid. cbn [rbind].
  destruct (py_eq _ cell_id).
  - cbn [py_setitem rbind]. eexists. split; [done|]. split; [|done].
    cbn [forallb]. rewrite Hcells, andb_true_r.
    by repeat apply is_cell_set.
  - destruct (IH Hcells) as (l & -> & Hl & Hlen). cbn [rbind].
    eexists. split; [done|]. cbn. by rewrite Hc, Hl, Hlen.
Qed.

(** The four handlers that edit the cell list keep the Notebook
    invariant: on a Notebook (a dict whose cells are a list of cells
    that is not empty) each of add, delete, move and retype answers 200
    for every request body, never raises, and leaves a Notebook; none of
    them touches the kernel or the files. *)
Theorem editing_keeps_a_notebook (s : server) (data : list (string * json))
    (handler : json -> M reply) :
  notebook_ok (current_notebook s) = true ->
  In handler editors ->
  exists body s',
    handler (JDict data) s = (Ok (Reply 200 body), s') /\
    notebook_ok (current_notebook s') = true /\
    process s' = process s /\ execution_count s' = execution_count s /\
    trace s' = trace s /\ files s' = files s.
Proof.
  intros (d & cells & Hnb & Hd & Hcells & Hne)%notebook_ok_inv Hh.
  destruct Hh as [<-|[<-|[<-|[<-|[]]]]].
  - unfold post_cell_add, bind, get_notebook. rewrite Hnb.
    rewrite (assoc_some_truthy _ _ _ Hd). unfold lift. cbn [py_get].
    unfold do_uuid4, syscall, total.
    destruct (uuid4 (outside s)) as [u w]. sproj.
    assert (Happend : forall s0 : server,
              current_notebook s0 = JDict d ->
              exists s', append_cell (empty_cell u (field data "type" (JStr "code"))) s0
                         = (Ok tt, s') /\
                         notebook_ok (current_notebook s') = true /\
                         process s' = process s0 /\
                         execution_count s' = execution_count s0 /\
                         trace s' = trace s0 /\ files s' = files s0).
    { intros s0 H0. unfold append_cell, bind, get_notebook, lift, set_notebook.
      rewrite H0. cbn [py_getitem]. rewrite Hd. cbn [py_append py_setitem].
      eexists. split; [reflexivity|]. sproj. split; [|done].
      apply notebook_ok_set; [|by destruct cells].
      rewrite forallb_app, Hcells. done. }
    fold (field data "type" (JStr "code")) (field data "after_id" JNull).
    destruct (py_truthy (field data "after_id" JNull)).
    + cbn [py_getitem]. rewrite Hd. cbn [py_iter].
      destruct (add_loop_cells (field data "after_id" JNull)
                  (empty_cell u (field data "type" (JStr "code"))) cells Hcells
                  eq_refl) as ([l|] & -> & Hl).
      * unfold put_cells, bind, get_notebook. sproj. rewrite Hnb, Hd.
        unfold set_notebook, ret. eexists _, _. split; [reflexivity|]. sproj.
        rewrite app_nil_r.
        split; [|done]. destruct Hl. by apply notebook_ok_set.
      * match goal with |- context [append_cell _ ?s0] =>
          destruct (Happend s0 Hnb) as (s' & -> & Hok & ?) end.
        unfold ret. eexists _, _. split; [reflexivity|]. sproj.
        rewrite app_nil_r in *. by destruct_and!.
    + match goal with |- context [append_cell _ ?s0] =>
        destruct (Happend s0 Hnb) as (s' & -> & Hok & ?) end.
      unfold ret. eexists _, _. split; [reflexivity|]. sproj.
      rewrite app_nil_r in *. by destruct_and!.
  - unfold post_cell_delete, bind, get_notebook. rewrite Hnb.
    rewrite (assoc_some_truthy _ _ _ Hd). unfold lift.
    cbn [py_get py_getitem]. rewrite Hd. cbn [py_iter].
    rewrite (remove_cell_total _ _ Hcells).
    cbn [py_setitem]. unfold set_notebook at 1. sproj.
    match goal with |- context [List.filter ?f cells] =>
      pose proof (forallb_filter f is_cell cells Hcells) as Hsub;
      destruct (List.filter f cells) as [|c0 rest] eqn:Ef end.
    + cbn [py_truthy negb]. unfold do_uuid4, syscall, total. sproj.
      destruct (uuid4 (outside s)) as [u w]. sproj.
      cbn [py_append py_setitem]. unfold set_notebook, ret.
      eexists _, _. split; [reflexivity|]. sproj. rewrite app_nil_r.
      split; [|done].
      rewrite dict_set_twice. by apply notebook_ok_set.
    + cbn [py_truthy negb]. unfold ret.
      eexists _, _. split; [reflexivity|]. sproj. split; [|done].
      by apply notebook_ok_set.
  - unfold post_cell_move, bind, get_notebook. rewrite Hnb.
    rewrite (assoc_some_truthy _ _ _ Hd). unfold lift.
    cbn [py_get py_getitem]. rewrite Hd. cbn [py_iter].
    match goal with |- context [move_loop ?i ?dir 0 cells cells] =>
      destruct (move_loop_perm i dir cells cells 0%nat Hcells) as (l & -> & Hp) end.
    unfold put_cells, bind, get_notebook. rewrite Hnb, Hd.
    unfold set_notebook, ret. eexists _, _. split; [reflexivity|]. sproj.
    split; [|done]. apply notebook_ok_set.
    + by apply (forallb_perm _ _ _ Hp).
    + intros ->. apply Permutation_nil_l in Hp. done.
  - unfold post_cell_type, bind, get_notebook. rewrite Hnb.
    rewrite (assoc_some_truthy _ _ _ Hd). unfold lift.
    cbn [py_get py_getitem]. rewrite Hd. cbn [py_iter].
    match goal with |- context [retype_loop ?i ?ty cells] =>
      destruct (retype_loop_cells i ty cells Hcells) as (l & -> & Hl & Hlen) end.
    unfold put_cells, bind, get_notebook. rewrite Hnb, Hd.
    unfold set_notebook, ret. eexists _, _. split; [reflexivity|]. sproj.
    split; [|done]. apply notebook_ok_set; [done|].
    intros ->. by destruct cells.
Qed.

End Properties.

(** * The theorems on the concrete servers *)

#[local] Existing Instance JsonText.codec.
#[local] Existing Instance Script.os.

(** C1: with no kernel running and a kernel binary that cannot be
    started, [execute] raises the error of its first [start] instead of
    returning a Response, and so does the [/api/execute] handler. *)
Theorem execute_raises_when_the_kernel_cannot_start :
  fst (execute (JStr "c1") (JStr "print(1).") Example.no_kernel)
  = Raise (Exn "FileNotFoundError"
             "[Errno 2] No such file or directory: 'scriptit'") /\
  fst (post_execute Example.run_c1 (JInt 0) Example.no_kernel)
  = Raise (Exn "FileNotFoundError"
             "[Errno 2] No such file or directory: 'scriptit'").
Proof. split; vm_compute; reflexivity. Qed.

(** C4: a notebook of three code cells, none of them blank, and a
    kernel that answers the first and closes its output during the
    second, with no kernel binary to start another.  The second cell
    gets the error Response of the failed exchange; the [execute] of
    the third then raises out of run-all, which sends no reply: the
    third cell is never sent to a kernel, and the Responses of the first
    two are lost to the client. *)
Theorem run_all_aborts_when_the_kernel_cannot_restart :
  List.filter eligible Example.three_code_cells = Example.three_code_cells /\
  fst (post_run_all (JDict []) Example.orphaned)
  = Raise (Exn "FileNotFoundError"
             "[Errno 2] No such file or directory: 'scriptit'") /\
  trace (snd (post_run_all (JDict []) Example.orphaned))
  = [EvPoll 0%nat;
     EvWrite 0%nat (request_line (execute_request (JStr "c1") (JStr "var a = 1.")));
     EvFlush 0%nat; EvReadline 0%nat;
     EvPoll 0%nat;
     EvWrite 0%nat (request_line (execute_request (JStr "c2") (JStr "boom.")));
     EvFlush 0%nat; EvReadline 0%nat;
     EvPopen; EvPopen] /\
  cell_column "execution_count"
    (current_notebook (snd (post_run_all (JDict []) Example.orphaned)))
  = [JInt 1; JInt 0; JNull] /\
  cell_column "outputs"
    (current_notebook (snd (post_run_all (JDict []) Example.orphaned)))
  = [JList [];
     JList [output_entry "stderr"
              (JStr "Kernel error: No response from kernel (process may have crashed)")];
     JList []].
Proof. repeat split; vm_compute; reflexivity. Qed.

(** A kernel that ignores the shutdown request is killed, and the new
    kernel takes over with the counter at 0. *)
Example restart_kills_a_stubborn_kernel :
  fst (restart Example.stubborn) = Ok tt /\
  trace (snd (restart Example.stubborn))
  = [EvPoll 0%nat; EvWrite 0%nat (request_line shutdown_request);
     EvFlush 0%nat; EvWait 0%nat 3; EvKill 0%nat; EvWait 0%nat 2;
     EvPopen; EvReadline 1%nat] /\
  process (snd (restart Example.stubborn)) = Some 1%nat /\
  execution_count (snd (restart Example.stubborn)) = 0.
Proof. repeat split; vm_compute; reflexivity. Qed.

(** When the kernel cannot be started [restart] raises, and [reset]
    answers with an error record. *)
Example restart_raises_and_reset_reports :
  fst (restart Example.no_kernel)
  = Raise (Exn "FileNotFoundError"
             "[Errno 2] No such file or directory: 'scriptit'") /\
  fst (reset Example.no_kernel)
  = Ok (error_message
          (Exn "FileNotFoundError"
             "[Errno 2] No such file or directory: 'scriptit'")).
Proof. split; vm_compute; reflexivity. Qed.

(** A Response with a stdout and a result replaces the old outputs of a
    cell by two entries. *)
Example outputs_of_a_response :
  store_result
    (JDict [("id", JStr "c1");
            ("outputs", JList [output_entry "stderr" (JStr "old")])])
    (JDict [("status", JStr "ok"); ("stdout", JStr "hello");
            ("stderr", JStr ""); ("result", JStr "42");
            ("execution_count", JInt 2)])
  = Ok (JDict [("id", JStr "c1");
               ("outputs", JList [output_entry "stdout" (JStr "hello");
                                  output_entry "result" (JStr "42")]);
               ("execution_count", JInt 2)]).
Proof. reflexivity. Qed.

(** Against C2: cell c1 holds the execution count 3 of its last run; the
    kernel dies during the next one, [/api/execute] answers with an
    [error] Response, and the count of c1 is overwritten with 0. *)
Lemma error_response_overwrites_execution_count :
  cell_column "execution_count" (current_notebook Example.crashing)
  = [JInt 3] /\
  (exists response,
     fst (post_execute Example.run_c1 (JInt 0) Example.crashing)
     = Ok (Reply 200 response) /\
     py_getitem response "status" = Ok (JStr "error")) /\
  cell_column "execution_count"
    (current_notebook (snd (post_execute Example.run_c1 (JInt 0) Example.crashing)))
  = [JInt 0].
Proof.
  split; [reflexivity|]. split; [|vm_compute; reflexivity].
  eexists. split; vm_compute; reflexivity.
Qed.


(** The three mutators on a notebook of two cells, for an id it has not. *)
Lemma absent_id_is_a_silent_no_op_witness :
  notebook_cells (current_notebook Example.pair) = Some Example.two_cells /\
  id_absent (field Example.unknown_cell "cell_id" (JStr "")) Example.two_cells
  = true /\
  Example.two_cells <> [] /\
  post_cell_delete (JDict Example.unknown_cell) Example.pair
  = (Ok (Reply 200 (JDict [("status", JStr "deleted")])), Example.pair) /\
  post_cell_move (JDict Example.unknown_cell) Example.pair
  = (Ok (Reply 200 (JDict [("status", JStr "moved")])), Example.pair) /\
  post_cell_type (JDict Example.unknown_cell) Example.pair
  = (Ok (Reply 200 (JDict [("status", JStr "updated")])), Example.pair).
Proof.
  destruct (absent_id_is_a_silent_no_op Example.pair Example.two_cells
              Example.unknown_cell eq_refl eq_refl) as (Hd & Hm & Ht).
  assert (Hne : Example.two_cells <> []) by discriminate.
  split; [reflexivity|]. split; [reflexivity|]. split; [exact Hne|].
  split; [exact (Hd Hne)|]. split; [exact Hm|exact Ht].
Defined.

(** A notebook saved as [demo.nsit] at noon and loaded again. *)
Lemma save_then_load_round_trip_witness :
  save_notebook "demo.nsit" Example.single = (Ok tt, Example.saved) /\
  json_loads (json_dumps_indent 2 (current_notebook Example.saved))
  = Ok (current_notebook Example.saved) /\
  exists doc,
    load_notebook "demo.nsit" Example.saved = (Ok doc, Example.saved) /\
    cell_ids doc = [JStr "c1"] /\
    cell_sources doc = [JStr "print(1)."] /\
    metadata_field doc "title" = Some (JStr "Untitled") /\
    metadata_field doc "modified" = Some (JStr "2024-01-01T12:00:00Z").
Proof.
  assert (Hsave : save_notebook "demo.nsit" Example.single
                  = (Ok tt, Example.saved)) by (vm_compute; reflexivity).
  assert (Hcodec : json_loads (json_dumps_indent 2 (current_notebook Example.saved))
                   = Ok (current_notebook Example.saved))
    by (vm_compute; reflexivity).
  split; [exact Hsave|]. split; [exact Hcodec|].
  destruct (save_then_load_round_trip Example.single Example.saved "demo.nsit"
              Hsave Hcodec) as (doc & Hload & Hids & Hsrc & Hmeta & Hmod).
  exists doc. split; [exact Hload|].
  split; [rewrite Hids; reflexivity|].
  split; [rewrite Hsrc; reflexivity|].
  split; [rewrite (Hmeta "title") by discriminate; reflexivity|].
  rewrite Hmod. reflexivity.
Defined.

(** Against C9: the file holds a document of version 9.9 with neither
    metadata nor cells, and [load] returns it as the notebook. *)
Lemma load_accepts_an_unknown_document :
  acceptable_document Example.odd_document = false /\
  load_notebook "odd.nsit" Example.with_odd_file
  = (Ok Example.odd_document, Example.with_odd_file).
Proof. split; vm_compute; reflexivity. Qed.

(** The same file, through the theorem. *)
Lemma load_returns_what_the_file_decodes_to_witness :
  files Example.with_odd_file !! "odd.nsit"
  = Some (JsonText.print Example.odd_document) /\
  json_loads (JsonText.print Example.odd_document) = Ok Example.odd_document /\
  load_notebook "odd.nsit" Example.with_odd_file
  = (Ok Example.odd_document, Example.with_odd_file).
Proof.
  assert (Hfile : files Example.with_odd_file !! "odd.nsit"
                  = Some (JsonText.print Example.odd_document))
    by (vm_compute; reflexivity).
  assert (Hdoc : json_loads (JsonText.print Example.odd_document)
                 = Ok Example.odd_document) by (vm_compute; reflexivity).
  split; [exact Hfile|]. split; [exact Hdoc|].
  exact (load_returns_what_the_file_decodes_to Example.with_odd_file
           "odd.nsit" _ _ Hfile Hdoc).
Defined.



(** Run-all over five cells: the markdown cell and the blank code cell
    are skipped, the second of the three executions fails, and the third
    is executed all the same. *)
Lemma run_all_executes_eligible_cells_in_order_witness :
  notebook_cells (current_notebook Example.batch) = Some Example.five_cells /\
  forallb is_cell Example.five_cells = true /\
  map (fun c => cell_field c "id") (List.filter eligible Example.five_cells)
  = [JStr "c1"; JStr "c3"; JStr "c4"] /\
  execute_each (List.filter eligible Example.five_cells) Example.batch
  = (Ok Example.three_responses, Example.after_batch) /\
  forallb is_record Example.three_responses = true /\
  map (fun r => cell_field r "status") Example.three_responses
  = [JStr "ok"; JStr "error"; JStr "ok"] /\
  exists s',
    post_run_all (JDict []) Example.batch
    = (Ok (Reply 200 (JDict [("status", JStr "ok");
                             ("results", JList Example.three_responses)])), s').
Proof.
  assert (Hex : execute_each (List.filter eligible Example.five_cells) Example.batch
                = (Ok Example.three_responses, Example.after_batch))
    by (vm_compute; reflexivity).
  split; [reflexivity|]. split; [reflexivity|]. split; [reflexivity|].
  split; [exact Hex|]. split; [reflexivity|]. split; [reflexivity|].
  destruct (run_all_executes_eligible_cells_in_order Example.batch
              Example.after_batch Example.five_cells Example.three_responses
              (JDict []) eq_refl eq_refl Hex eq_refl) as (s' & E & _).
  exists s'. exact E.
Defined.

(** * The further properties on the concrete servers *)

(** [stop] on a kernel that obeys the shutdown request, and the status
    asked afterwards. *)
Lemma status_after_stop_witness :
  stop Example.resettable = (Ok tt, snd (stop Example.resettable)) /\
  get_kernel_status (snd (stop Example.resettable))
  = (Ok (Reply 200 (JDict [("alive", JBool false)])),
     snd (stop Example.resettable)).
Proof.
  assert (Hstop : stop Example.resettable = (Ok tt, snd (stop Example.resettable)))
    by (vm_compute; reflexivity).
  split; [exact Hstop|].
  exact (status_after_stop Example.resettable _ Hstop).
Defined.

(** A new kernel that prints a line that is no JSON: [start] raises the
    decode error, and the child is the kernel's process. *)
Lemma start_keeps_the_child_it_rejects_witness :
  start Example.unready
  = (Raise (Exn "JSONDecodeError" "Expecting value"),
     snd (start Example.unready)) /\
  process (snd (start Example.unready)) = Some 0%nat /\
  exists polled,
    (polled = [] \/ exists h0, polled = [EvPoll h0]) /\
    ((trace (snd (start Example.unready))
      = trace Example.unready ++ polled ++ [EvPopen] /\
      process (snd (start Example.unready)) = process Example.unready) \/
     (exists h,
        trace (snd (start Example.unready))
        = trace Example.unready ++ polled ++ [EvPopen; EvReadline h] /\
        process (snd (start Example.unready)) = Some h)).
Proof.
  assert (Hstart : start Example.unready
                   = (Raise (Exn "JSONDecodeError" "Expecting value"),
                      snd (start Example.unready)))
    by (vm_compute; reflexivity).
  split; [exact Hstart|]. split; [vm_compute; reflexivity|].
  exact (start_keeps_the_child_it_rejects Example.unready _ _ Hstart).
Defined.

(** A kernel started from nothing, and started again. *)
Lemma start_is_idempotent_witness :
  start Example.stopped = (Ok tt, snd (start Example.stopped)) /\
  exists h,
    process (snd (start Example.stopped)) = Some h /\
    fst (start (snd (start Example.stopped))) = Ok tt /\
    trace (snd (start (snd (start Example.stopped))))
    = [EvPopen; EvReadline h; EvPoll h].
Proof.
  assert (Hstart : start Example.stopped = (Ok tt, snd (start Example.stopped)))
    by (vm_compute; reflexivity).
  split; [exact Hstart|].
  destruct (start_is_idempotent Example.stopped _ Hstart) as (h & Hp & Hagain).
  exists h. split; [exact Hp|].
  assert (Hh : h = 0%nat).
  { vm_compute in Hp. injection Hp as <-. reflexivity. }
  subst h.
  rewrite (Hagain (outside (snd (start Example.stopped))))
    by (vm_compute; reflexivity).
  split; [reflexivity|]. vm_compute. reflexivity.
Defined.

(** One exchange with a kernel that answers about c1. *)
Lemma execute_returns_the_reply_witness :
  process Example.answering = Some 0%nat /\
  fst (poll 0%nat (outside Example.answering)) = true /\
  fst (execute (JStr "c1") (JStr "print(1).") Example.answering)
  = Ok (Example.response "c1" "ok" "1" "" 4) /\
  trace (snd (execute (JStr "c1") (JStr "print(1).") Example.answering))
  = [EvPoll 0%nat;
     EvWrite 0%nat (request_line (execute_request (JStr "c1") (JStr "print(1).")));
     EvFlush 0%nat; EvReadline 0%nat].
Proof.
  split; [reflexivity|]. split; [reflexivity|].
  rewrite (execute_returns_the_reply Example.answering 0%nat
             (JStr "c1") (JStr "print(1).")
             (outside Example.answering) (outside Example.answering)
             (outside Example.answering)
             (snd (stdout_readline 0%nat (outside Example.answering)))
             (Example.line (Example.response "c1" "ok" "1" "" 4))
             (Example.response "c1" "ok" "1" "" 4));
    try (vm_compute; reflexivity).
  split; reflexivity.
Defined.

(** A kernel that closes its output in the middle of the exchange: the
    error record is returned and one new kernel is started. *)
Lemma execute_restarts_once_after_a_failure_witness :
  process Example.crashing = Some 0%nat /\
  fst (poll 0%nat (outside Example.crashing)) = true /\
  process (snd (execute (JStr "c1") (JStr "var x = 1 / 0.") Example.crashing))
  = Some 1%nat /\
  exists r s' evs,
    execute (JStr "c1") (JStr "var x = 1 / 0.") Example.crashing = (Ok r, s') /\
    trace s' = trace Example.crashing ++ evs /\
    ((evs = [EvPoll 0%nat;
             EvWrite 0%nat
               (request_line (execute_request (JStr "c1") (JStr "var x = 1 / 0.")));
             EvFlush 0%nat; EvReadline 0%nat] /\
      process s' = Some 0%nat) \/
     (List.length (List.filter is_spawn evs) = 1%nat /\
      exists e, r = kernel_error (JStr "c1") e)).
Proof.
  split; [reflexivity|]. split; [reflexivity|].
  split; [vm_compute; reflexivity|].
  exact (execute_restarts_once_after_a_failure Example.crashing 0%nat
           (JStr "c1") (JStr "var x = 1 / 0.") eq_refl eq_refl).
Defined.

(** With no kernel and no binary, the two handlers. *)
Lemma restart_answers_500_and_reset_200_witness :
  is_dead Example.no_kernel = (Ok true, Example.no_kernel) /\
  popen (outside Example.no_kernel)
  = (Raise (Exn "FileNotFoundError"
              "[Errno 2] No such file or directory: 'scriptit'"),
     outside Example.no_kernel) /\
  fst (post_kernel_restart Example.no_kernel)
  = Ok (Reply 500
          (JDict [("status", JStr "error");
                  ("message",
                   JStr "[Errno 2] No such file or directory: 'scriptit'")])) /\
  fst (post_kernel_reset Example.no_kernel)
  = Ok (Reply 200
          (JDict [("status", JStr "error");
                  ("message",
                   JStr "[Errno 2] No such file or directory: 'scriptit'")])).
Proof.
  assert (Hdead : is_dead Example.no_kernel = (Ok true, Example.no_kernel))
    by reflexivity.
  assert (Hpopen : popen (outside Example.no_kernel)
                   = (Raise (Exn "FileNotFoundError"
                               "[Errno 2] No such file or directory: 'scriptit'"),
                      outside Example.no_kernel)) by reflexivity.
  split; [exact Hdead|]. split; [exact Hpopen|].
  destruct (restart_answers_500_and_reset_200 Example.no_kernel _ _ _
              Hdead Hpopen) as (H1 & H2 & _).
  split; [exact H1|exact H2].
Defined.

(** The second of three cells moved up. *)
Lemma move_swaps_with_the_neighbour_witness :
  notebook_cells (current_notebook Example.triple) = Some Example.three_cells /\
  exists s',
    post_cell_move (JDict Example.c2_up) Example.triple
    = (Ok (Reply 200 (JDict [("status", JStr "moved")])), s') /\
    cell_ids (current_notebook s') = [JStr "c2"; JStr "c1"; JStr "c3"].
Proof.
  split; [reflexivity|].
  destruct (move_swaps_with_the_neighbour Example.triple Example.c2_up
              [Example.cell "c1" "code" "print(1)." (JInt 1)]
              [Example.cell "c3" "code" "print(3)." (JInt 2)]
              (Example.cell "c2" "markdown" "# notes" JNull) (JStr "c2")
              eq_refl eq_refl eq_refl eq_refl)
    as (s' & cells' & E & Hnb & _ & Hup & _).
  exists s'. split; [exact E|].
  destruct (Hup eq_refl) as [_ Hswap].
  rewrite Hnb, (Hswap [] (Example.cell "c1" "code" "print(1)." (JInt 1)) eq_refl).
  reflexivity.
Defined.

(** The second of three cells moved up and down again. *)
Lemma move_up_then_down_restores_witness :
  notebook_cells (current_notebook Example.triple) = Some Example.three_cells /\
  exists s1,
    post_cell_move (JDict Example.c2_up) Example.triple
    = (Ok (Reply 200 (JDict [("status", JStr "moved")])), s1) /\
    cell_ids (current_notebook s1) = [JStr "c2"; JStr "c1"; JStr "c3"] /\
    post_cell_move (JDict Example.c2_down) s1
    = (Ok (Reply 200 (JDict [("status", JStr "moved")])), Example.triple).
Proof.
  split; [reflexivity|].
  destruct (move_up_then_down_restores Example.triple Example.c2_up
              Example.c2_down []
              [Example.cell "c3" "code" "print(3)." (JInt 2)]
              (Example.cell "c1" "code" "print(1)." (JInt 1))
              (Example.cell "c2" "markdown" "# notes" JNull)
              (JStr "c2") (JStr "c2")
              eq_refl eq_refl eq_refl eq_refl eq_refl eq_refl eq_refl eq_refl)
    as (s1 & E1 & Hnb & E2).
  exists s1. split; [exact E1|]. split; [|exact E2].
  rewrite Hnb. reflexivity.
Defined.

(** The third cell, a code cell that ran, made a markdown cell. *)
Lemma retype_clears_the_results_witness :
  notebook_cells (current_notebook Example.triple) = Some Example.three_cells /\
  exists s' d',
    post_cell_type (JDict Example.c3_to_markdown) Example.triple
    = (Ok (Reply 200 (JDict [("status", JStr "updated")])), s') /\
    notebook_cells (current_notebook s')
    = Some [Example.cell "c1" "code" "print(1)." (JInt 1);
            Example.cell "c2" "markdown" "# notes" JNull;
            JDict d'] /\
    assoc "id" d' = Some (JStr "c3") /\
    assoc "type" d' = Some (JStr "markdown") /\
    assoc "source" d' = Some (JStr "print(3).") /\
    assoc "execution_count" d' = Some JNull.
Proof.
  split; [reflexivity|].
  destruct (retype_clears_the_results Example.triple Example.c3_to_markdown
              [Example.cell "c1" "code" "print(1)." (JInt 1);
               Example.cell "c2" "markdown" "# notes" JNull]
              []
              [("id", JStr "c3"); ("type", JStr "code");
               ("source", JStr "print(3)."); ("outputs", JList []);
               ("execution_count", JInt 2); ("metadata", JDict [])]
              (JStr "c3") eq_refl eq_refl eq_refl eq_refl)
    as (s' & d' & E & Hnb & _ & Hty & _ & Hcount & Hkeep).
  exists s', d'. split; [exact E|].
  split; [rewrite Hnb; reflexivity|].
  split; [rewrite (Hkeep "id") by discriminate; reflexivity|].
  split; [exact Hty|].
  split; [rewrite (Hkeep "source") by discriminate; reflexivity|].
  exact Hcount.
Defined.

(** A markdown cell added after the first of three cells, and a cell
    added with no place named. *)
Lemma add_inserts_after_or_appends_witness :
  notebook_cells (current_notebook Example.triple) = Some Example.three_cells /\
  (exists s',
     post_cell_add (JDict Example.add_after_c1) Example.triple
     = (Ok (Reply 200 (empty_cell "uuid-1" (JStr "markdown"))), s') /\
     cell_ids (current_notebook s')
     = [JStr "c1"; JStr "uuid-1"; JStr "c2"; JStr "c3"]) /\
  (exists s',
     post_cell_add (JDict []) Example.triple
     = (Ok (Reply 200 (empty_cell "uuid-1" (JStr "code"))), s') /\
     cell_ids (current_notebook s')
     = [JStr "c1"; JStr "c2"; JStr "c3"; JStr "uuid-1"]).
Proof.
  split; [reflexivity|]. split.
  - destruct (add_inserts_after_or_appends Example.triple Example.add_after_c1
                Example.three_cells eq_refl) as [_ Hafter].
    destruct (Hafter [] (Example.cell "c1" "code" "print(1)." (JInt 1))
                [Example.cell "c2" "markdown" "# notes" JNull;
                 Example.cell "c3" "code" "print(3)." (JInt 2)]
                (JStr "c1") eq_refl eq_refl eq_refl eq_refl eq_refl)
      as (s' & E & Hnb).
    exists s'. split; [exact E|]. rewrite Hnb. reflexivity.
  - destruct (add_inserts_after_or_appends Example.triple []
                Example.three_cells eq_refl) as [Hend _].
    destruct (Hend (or_introl eq_refl)) as (s' & E & Hnb).
    exists s'. split; [exact E|]. rewrite Hnb. reflexivity.
Defined.

(** The second of three cells deleted. *)
Lemma delete_removes_every_cell_of_that_id_witness :
  notebook_cells (current_notebook Example.triple) = Some Example.three_cells /\
  forallb has_id Example.three_cells = true /\
  exists s',
    post_cell_delete (JDict Example.c2_up) Example.triple
    = (Ok (Reply 200 (JDict [("status", JStr "deleted")])), s') /\
    cell_ids (current_notebook s') = [JStr "c1"; JStr "c3"] /\
    outside s' = outside Example.triple.
Proof.
  split; [reflexivity|]. split; [reflexivity|].
  destruct (delete_removes_every_cell_of_that_id Example.triple
              Example.three_cells Example.c2_up eq_refl eq_refl)
    as (s' & E & Hnb & _ & Hk & _).
  { discriminate. }
  exists s'. split; [exact E|]. split; [rewrite Hnb; reflexivity|].
  injection Hk as _ _ Hw _. exact Hw.
Defined.

(** Cell c1 run again through [/api/execute] by a kernel that answers
    with the count 4 and the output 1. *)
Lemma execute_handler_writes_back_witness :
  execute (JStr "c1") (JStr "print(1).") Example.answering
  = (Ok (Example.response "c1" "ok" "1" "" 4),
     snd (execute (JStr "c1") (JStr "print(1).") Example.answering)) /\
  notebook_cells (current_notebook Example.answering) = Some Example.two_cells /\
  forallb has_id Example.two_cells = true /\
  exists s' d',
    fst (post_execute (JDict Example.run_c1_again) (JInt 0) Example.answering)
    = Ok (Reply 200 (JDict [("cell_id", JStr "c1"); ("status", JStr "ok");
                            ("stdout", JStr "1"); ("stderr", JStr "");
                            ("result", JStr ""); ("execution_count", JInt 4);
                            ("exec_time", JInt 0)])) /\
    snd (post_execute (JDict Example.run_c1_again) (JInt 0) Example.answering)
    = s' /\
    notebook_cells (current_notebook s')
    = Some [JDict d'; Example.cell "c2" "markdown" "# notes" JNull] /\
    assoc "execution_count" d' = Some (JInt 4) /\
    assoc "outputs" d' = Some (JList [output_entry "stdout" (JStr "1")]).
Proof.
  assert (Hex : execute (JStr "c1") (JStr "print(1).") Example.answering
                = (Ok (Example.response "c1" "ok" "1" "" 4),
                   snd (execute (JStr "c1") (JStr "print(1).") Example.answering)))
    by (vm_compute; reflexivity).
  split; [exact Hex|]. split; [reflexivity|]. split; [reflexivity|].
  destruct (execute_handler_writes_back Example.answering _
              Example.run_c1_again _ (JInt 0) Example.two_cells
              Hex eq_refl eq_refl) as (s' & E & _ & _ & Hfound).
  destruct (Hfound [] 
              [("id", JStr "c1"); ("type", JStr "code");
               ("source", JStr "print(1)."); ("outputs", JList []);
               ("execution_count", JInt 1); ("metadata", JDict [])]
              [Example.cell "c2" "markdown" "# notes" JNull] (JStr "c1")
              eq_refl eq_refl eq_refl eq_refl)
    as (d' & Hnb & _ & Hout & Hcount & _).
  exists s', d'. rewrite E. split; [reflexivity|]. split; [reflexivity|].
  split; [rewrite Hnb; reflexivity|]. split; [exact Hcount|exact Hout].
Defined.

(** Run-all over the five cells: the Responses go to c1, c3 and c4, and
    the markdown cell and the blank cell keep what they held. *)
Lemma run_all_stores_each_response_in_its_cell_witness :
  notebook_cells (current_notebook Example.batch) = Some Example.five_cells /\
  forallb is_cell Example.five_cells = true /\
  execute_each (List.filter eligible Example.five_cells) Example.batch
  = (Ok Example.three_responses, Example.after_batch) /\
  forallb is_record Example.three_responses = true /\
  cell_column "execution_count"
    (current_notebook (snd (post_run_all (JDict []) Example.batch)))
  = [JInt 1; JNull; JNull; JInt 2; JInt 3] /\
  cell_column "outputs"
    (current_notebook (snd (post_run_all (JDict []) Example.batch)))
  = [JList []; JList []; JList [];
     JList [output_entry "stderr" (JStr "undefined: boom")];
     JList [output_entry "stdout" (JStr "1")]].
Proof.
  assert (Hex : execute_each (List.filter eligible Example.five_cells) Example.batch
                = (Ok Example.three_responses, Example.after_batch))
    by (vm_compute; reflexivity).
  split; [reflexivity|]. split; [reflexivity|]. split; [exact Hex|].
  split; [reflexivity|].
  destruct (run_all_stores_each_response_in_its_cell Example.batch
              Example.after_batch Example.five_cells Example.three_responses
              (JDict []) eq_refl eq_refl Hex eq_refl) as (Hnb & _).
  rewrite Hnb. split; vm_compute; reflexivity.
Defined.

(** Saving to a file that cannot be written: the error goes to the
    caller, and the notebook is stamped with the time of the attempt. *)
Lemma save_stamps_before_it_opens_witness :
  open_w "demo.nsit" (snd (utcnow (outside Example.locked)))
  = (Raise (Exn "PermissionError" "[Errno 13] Permission denied"),
     outside Example.locked) /\
  metadata_field (current_notebook Example.locked) "modified"
  = Some (JStr "2024-01-01T09:00:00Z") /\
  exists s',
    save_notebook "demo.nsit" Example.locked
    = (Raise (Exn "PermissionError" "[Errno 13] Permission denied"), s') /\
    files s' = files Example.locked /\
    metadata_field (current_notebook s') "modified"
    = Some (JStr "2024-01-01T12:00:00Z").
Proof.
  assert (Hopen : open_w "demo.nsit" (snd (utcnow (outside Example.locked)))
                  = (Raise (Exn "PermissionError" "[Errno 13] Permission denied"),
                     outside Example.locked)) by reflexivity.
  split; [exact Hopen|]. split; [reflexivity|].
  destruct (save_stamps_before_it_opens Example.locked "demo.nsit" _ _ _ _
              eq_refl eq_refl Hopen) as (s' & E & Hf & Hm & _).
  exists s'. split; [exact E|]. split; [exact Hf|exact Hm].
Defined.

(** Retyping a cell of the three-cell notebook through the invariant. *)
Lemma editing_keeps_a_notebook_witness :
  notebook_ok (current_notebook Example.triple) = true /\
  In post_cell_type editors /\
  exists body s',
    post_cell_type (JDict Example.c3_to_markdown) Example.triple
    = (Ok (Reply 200 body), s') /\
    notebook_ok (current_notebook s') = true.
Proof.
  assert (Hin : In post_cell_type editors).
  { right. right. right. left. reflexivity. }
  split; [reflexivity|]. split; [exact Hin|].
  destruct (editing_keeps_a_notebook Example.triple Example.c3_to_markdown
              post_cell_type eq_refl Hin) as (body & s' & E & Hok & _).
  exists body, s'. split; [exact E|exact Hok].
Defined.
